(** * WhatsEase front end: a shallow embedding of the client messaging core

    The development follows the client sources file by file:

    - [JS]               the few JavaScript string primitives the code calls
                         ([trim], [toLowerCase], [includes], [endsWith]);
    - [ChatWindow]       components/Chat/ChatWindow.jsx: conversation loading,
                         the push-message handler and the optimistic send;
    - [MessageInput]     components/Chat/MessageInput.jsx: [handleSend];
    - [WebSocketContext] context/WebSocketContext.jsx: the outgoing event
                         helpers and the reconnect machine;
    - [ChatList]         components/Chat/ChatList.jsx: [processedChats], what
                         it writes into the list it is given, and the search
                         filter;
    - [ChatDashboard]    components/Chat/ChatDashboard.jsx: [handleChatSelect],
                         the presence handler and the renders of the list;
    - [DateUtils]        utils/DateUtils.js: [utcToLocal] and the formatters;
    - [MessageView]      components/Chat/Message.jsx: the edit box;
    - [AuthContext]      context/AuthContext.jsx: the stored session;
    - [ChatListView]     components/Chat/ChatList.jsx: the entry formatters;
    - [WindowDates]      components/Chat/ChatWindow.jsx: the date separators.

    React state is modelled by explicit state passing: a component's state
    variables form a record, every handler is a function from the current
    state to the next one, together with the calls it makes on its
    collaborators.  An [async] handler is split at its [await]: one function
    for the synchronous prefix, one for the continuation after the promise
    resolves, one for the [catch] branch.  Functional updates
    ([setMessages(prev => ...)]) act on the state current at that moment, which
    is what the split gives.  A state variable that a handler reads directly
    (the [isSending] of the send guard) has the value of the render that
    built the handler; it is an argument of the handler of its own. *)

From Stdlib Require Import String Ascii List Bool ZArith NArith Lia Sorted.
From stdpp Require Import base decidable strings list gmap pretty.
Import ListNotations.
Local Open Scope string_scope.

(* ===================================================================== *)
(** * JavaScript string primitives *)
(* ===================================================================== *)

Module JS.

(** Strings are the UTF-8 encodings of the program's strings (well-formed
    text).  Equality of strings and the substring relation are the same on
    the encodings as on the strings. *)

Definition code (c : ascii) : nat := nat_of_ascii c.

Definition is_empty (s : string) : bool :=
  match s with EmptyString => true | String _ _ => false end.

(** [!!s] for a string: the empty string is the only falsy one. *)
Definition truthy (s : string) : bool := negb (is_empty s).

(** The white space of ECMAScript ([WhiteSpace] and [LineTerminator]), which
    is what [String.prototype.trim] removes, by UTF-8 encoding:
    one byte for U+0009 to U+000D and U+0020; *)
Definition ws1 (a : ascii) : bool :=
  (9 <=? code a)%nat && (code a <=? 13)%nat || (code a =? 32)%nat.

(** two bytes for U+00A0; *)
Definition ws2 (a b : ascii) : bool :=
  (code a =? 194)%nat && (code b =? 160)%nat.

(** three bytes for U+1680, U+2000 to U+200A, U+2028, U+2029, U+202F,
    U+205F, U+3000 and U+FEFF. *)
Definition ws3 (a b c : ascii) : bool :=
  (code a =? 225)%nat && (code b =? 154)%nat && (code c =? 128)%nat
  || (code a =? 226)%nat && (code b =? 128)%nat
     && ((128 <=? code c)%nat && (code c <=? 138)%nat
         || (code c =? 168)%nat || (code c =? 169)%nat
         || (code c =? 175)%nat)
  || (code a =? 226)%nat && (code b =? 129)%nat && (code c =? 159)%nat
  || (code a =? 227)%nat && (code b =? 128)%nat && (code c =? 128)%nat
  || (code a =? 239)%nat && (code b =? 187)%nat && (code c =? 191)%nat.

Section Strip.

(** Recognizers of the one-, two- and three-byte tokens to remove. *)
Variable p1 : ascii -> bool.
Variable p2 : ascii -> ascii -> bool.
Variable p3 : ascii -> ascii -> ascii -> bool.

(** Removes the tokens at the head of [l]. *)
Fixpoint strip (l : list ascii) : list ascii :=
  match l with
  | [] => []
  | a :: r =>
      if p1 a then strip r
      else match r with
           | b :: r2 =>
               if p2 a b then strip r2
               else match r2 with
                    | c :: r3 => if p3 a b c then strip r3 else l
                    | [] => l
                    end
           | [] => l
           end
  end.

(** [l] is made of tokens only. *)
Fixpoint only (l : list ascii) : bool :=
  match l with
  | [] => true
  | a :: r =>
      if p1 a then only r
      else match r with
           | b :: r2 =>
               if p2 a b then only r2
               else match r2 with
                    | c :: r3 => if p3 a b c then only r3 else false
                    | [] => false
                    end
           | [] => false
           end
  end.

(** [l] begins with a token. *)
Definition starts (l : list ascii) : bool :=
  match l with
  | [] => false
  | a :: r =>
      p1 a
      || match r with
         | b :: r2 =>
             p2 a b
             || match r2 with
                | c :: _ => p3 a b c
                | [] => false
                end
         | [] => false
         end
  end.

End Strip.

Definition trimStartBytes : list ascii -> list ascii := strip ws1 ws2 ws3.

(** The white space at the end is the white space at the head of the
    reversed bytes, each encoding read backwards. *)
Definition trimEndBytes (l : list ascii) : list ascii :=
  rev (strip ws1 (fun a b => ws2 b a) (fun a b c => ws3 c b a) (rev l)).

Definition trimStart (s : string) : string :=
  string_of_list_ascii (trimStartBytes (list_ascii_of_string s)).

Definition trimEnd (s : string) : string :=
  string_of_list_ascii (trimEndBytes (list_ascii_of_string s)).

Definition trim (s : string) : string := trimEnd (trimStart s).

(** A string made of white space only (the empty string included). *)
Definition whitespace_only (s : string) : bool :=
  only ws1 ws2 ws3 (list_ascii_of_string s).

(** The action of [toLowerCase] on the ASCII letters; the other bytes are
    kept.  This is [String.prototype.toLowerCase] on ASCII text and on text
    whose other characters have no lower-case mapping, and it is evaluated
    on such text only; what is proved of the search for every query holds
    for any lower-casing function (see [ChatList.matches_with]). *)
Definition lower_char (c : ascii) : ascii :=
  let n := nat_of_ascii c in
  if (65 <=? n)%nat && (n <=? 90)%nat then ascii_of_nat (n + 32) else c.

Fixpoint toLowerCase (s : string) : string :=
  match s with
  | EmptyString => EmptyString
  | String c r => String (lower_char c) (toLowerCase r)
  end.

(** [s.startsWith(p)] *)
Fixpoint startsWith (s p : string) : bool :=
  match p, s with
  | EmptyString, _ => true
  | String _ _, EmptyString => false
  | String a p', String b s' => Ascii.eqb a b && startsWith s' p'
  end.

(** [s.includes(p)] *)
Fixpoint includes (s p : string) : bool :=
  startsWith s p ||
  match s with
  | EmptyString => false
  | String _ s' => includes s' p
  end.

(** [s.endsWith(c)] for a one-character string [c]. *)
Fixpoint endsWithChar (s : string) (c : ascii) : bool :=
  match s with
  | EmptyString => false
  | String a EmptyString => Ascii.eqb a c
  | String _ r => endsWithChar r c
  end.

End JS.

(* ===================================================================== *)
(** * components/Chat/ChatWindow.jsx *)
(* ===================================================================== *)

Module ChatWindow.

(** A message object, with the fields [handleSendMessage] gives its
    optimistic message.  Identifiers are strings. *)
Record Message := mkMessage {
  message_id : string;
  sender : string;
  recipient : string;
  content : string;
  timestamp : string;
  status : string;
  reply_to : option string;
  edited : bool
}.

(** The [data] object of a push event: read as a message by the
    [new_message] branch and through [is_typing] by the [typing] branch. *)
Record WsData := mkWsData {
  d_msg : Message;
  d_is_typing : bool
}.

(** A parsed push event.  [ws_data = None] is a missing (falsy) [data] field;
    [ws_flat] is the event object itself read as a message, which is what
    [wsMessage.data || wsMessage] falls back to. *)
Record WsMessage := mkWsMessage {
  ws_type : string;
  ws_data : option WsData;
  ws_flat : Message
}.

(** The props: [chat.other_user_email] and [currentUser.email]. *)
Record Props := mkProps {
  other_user_email : string;
  currentUser_email : string
}.

(** The component state ([useState] variables). *)
Record State := mkState {
  messages : list Message;
  loading : bool;
  error : option string;
  replyTo : option Message;
  isTyping : bool;
  isSending : bool
}.

(** Calls the component makes on its collaborators. *)
Inductive Call :=
| ApiGetConversation (partner : string)
| ApiSendMessage (to : string) (text : string) (reply : option string)
| ApiSendBotMessage (to : string) (text : string) (reply : option string)
| WsSendChatMessage (to : string) (text : string) (reply : option string)
| WsMarkAsRead (messageId : string) (senderEmail : string)
| WsMarkAsDelivered (messageId : string) (senderEmail : string).

Definition set_messages (f : list Message -> list Message) (st : State) : State :=
  mkState (f (messages st)) (loading st) (error st) (replyTo st)
          (isTyping st) (isSending st).

(** ** loadMessages *)

(** The body of a conversation response; [None] is a missing [messages]
    field. *)
Record ConversationResponse := mkResponse {
  resp_messages : option (list Message)
}.

(** Synchronous prefix: [setLoading(true); setError(null)] and the request. *)
Definition loadMessages_start (p : Props) (st : State) : State * list Call :=
  (mkState (messages st) true None (replyTo st) (isTyping st) (isSending st),
   [ApiGetConversation (other_user_email p)]).

(** After [await]: [response] may be null ([None]).  [Array.prototype.reverse]
    reverses the response array. *)
Definition loadMessages_resolve (response : option ConversationResponse)
    (st : State) : State :=
  let msgs :=
    match response with
    | Some r =>
        match resp_messages r with
        | Some l => rev l
        | None => []
        end
    | None => []
    end in
  mkState msgs false (error st) (replyTo st) (isTyping st) (isSending st).

(** The [catch] branch. *)
Definition loadMessages_reject (st : State) : State :=
  mkState [] false (Some "Failed to load messages") (replyTo st)
          (isTyping st) (isSending st).

(** ** The push-message handler *)

(** What one run of the handler does: it returns normally with a new state
    and the calls made, or throws (a [typing] event without [data]) before
    any update; the provider catches the exception. *)
Inductive Outcome :=
| Done (st : State) (calls : list Call)
| TypeError.

Definition in_conversation (p : Props) (m : Message) : bool :=
  (String.eqb (sender m) (other_user_email p)
     && String.eqb (recipient m) (currentUser_email p))
  || (String.eqb (sender m) (currentUser_email p)
        && String.eqb (recipient m) (other_user_email p)).

(** [prev => prev.some(m => m.message_id === id) ? prev : [...prev, msg]] *)
Definition append_unless_known (msg : Message) (prev : list Message)
  : list Message :=
  if existsb (fun m => String.eqb (message_id m) (message_id msg)) prev
  then prev else prev ++ [msg].

Definition is_message_type (t : string) : bool :=
  String.eqb t "new_message" || String.eqb t "message".

(** [wsMessage.data || wsMessage] *)
Definition messageData (w : WsMessage) : Message :=
  match ws_data w with Some d => d_msg d | None => ws_flat w end.

(** [markAsRead] comes from the context and is always a function there. *)
Definition onWsMessage (p : Props) (w : WsMessage) (st : State) : Outcome :=
  if is_message_type (ws_type w) then
    if in_conversation p (messageData w) then
      Done (set_messages (append_unless_known (messageData w)) st)
           (if String.eqb (sender (messageData w)) (other_user_email p)
            then [WsMarkAsRead (message_id (messageData w)) (other_user_email p)]
            else [])
    else Done st []
  else if String.eqb (ws_type w) "typing" then
    match ws_data w with
    | None => TypeError
    | Some d =>
        if String.eqb (sender (d_msg d)) (other_user_email p)
        then Done (mkState (messages st) (loading st) (error st) (replyTo st)
                           (d_is_typing d) (isSending st)) []
        else Done st []
    end
  else Done st [].

(** The state after a handler run; a throwing run updates nothing. *)
Definition state_after (o : Outcome) (st : State) : State :=
  match o with Done st' _ => st' | TypeError => st end.

Definition calls_of (o : Outcome) : list Call :=
  match o with Done _ cs => cs | TypeError => [] end.

(** ** handleSendMessage *)

(** The two clock reads of the optimistic message. *)
Record Clock := mkClock {
  date_now : N;            (* Date.now() *)
  iso_now : string         (* new Date().toISOString() *)
}.

(** [`temp-${Date.now()}`] *)
Definition temp_id (now : N) : string := "temp-" ++ pretty now.

(** [replyToId || null] *)
Definition or_null (replyToId : option string) : option string :=
  match replyToId with
  | Some s => if JS.truthy s then Some s else None
  | None => None
  end.

Definition optimisticMessage (p : Props) (clk : Clock) (content : string)
    (replyToId : option string) : Message :=
  mkMessage (temp_id (date_now clk)) (currentUser_email p)
            (other_user_email p) (JS.trim content) (iso_now clk)
            "Sending" (or_null replyToId) false.

Definition BOT_EMAIL : string := "bot@whatsease.com".

Definition send_call (p : Props) (content : string)
    (replyToId : option string) : Call :=
  if String.eqb (other_user_email p) BOT_EMAIL
  then ApiSendBotMessage (other_user_email p) (JS.trim content) (or_null replyToId)
  else ApiSendMessage (other_user_email p) (JS.trim content) (or_null replyToId).

(** The guard [!content || !content.trim() || isSending].  [isSending] is
    the constant of the render that built the handler: [sending] is the
    value that render saw, which need not be the current one. *)
Definition send_blocked (content : string) (sending : bool) : bool :=
  negb (JS.truthy content) || negb (JS.truthy (JS.trim content)) || sending.

(** Synchronous prefix, up to the [await], of the handler built by a render
    that saw [isSending = sending], run on the current state [st] (the
    updates are functional).  Returns the new state, the placeholder and
    the durable call issued, or [None] when the guard returns early
    (nothing is updated and nothing is called). *)
Definition handleSendMessage_start (p : Props) (clk : Clock) (content : string)
    (replyToId : option string) (sending : bool) (st : State)
  : option (State * Message * list Call) :=
  if send_blocked content sending then None
  else
    let opt := optimisticMessage p clk content replyToId in
    Some (mkState (messages st ++ [opt]) (loading st) None None
                  (isTyping st) true,
          opt,
          [send_call p content replyToId]).

(** The handler as a state transformer: a blocked send leaves the state as
    it is and makes no call. *)
Definition handleSendMessage_sync (p : Props) (clk : Clock) (content : string)
    (replyToId : option string) (sending : bool) (st : State)
  : State * list Call :=
  match handleSendMessage_start p clk content replyToId sending st with
  | Some (st', _, calls) => (st', calls)
  | None => (st, [])
  end.

(** [prev.map(msg => msg.message_id === opt.message_id ? newMessage : msg)] *)
Definition replace_optimistic (opt newMessage : Message)
    (prev : list Message) : list Message :=
  List.map (fun msg =>
              if String.eqb (message_id msg) (message_id opt)
              then newMessage else msg) prev.

(** Continuation after the durable call resolved with [newMessage];
    [connected] is [isConnected] ([sendChatMessage] is always a function). *)
Definition handleSendMessage_resolve (p : Props) (connected : bool)
    (content : string) (replyToId : option string)
    (opt newMessage : Message) (st : State) : State * list Call :=
  (mkState (replace_optimistic opt newMessage (messages st)) (loading st)
           (error st) (replyTo st) (isTyping st) false,
   if connected && negb (String.eqb (other_user_email p) BOT_EMAIL)
   then [WsSendChatMessage (other_user_email p) (JS.trim content) replyToId]
   else []).

(** [prev.filter(msg => msg.message_id !== opt.message_id)] *)
Definition remove_optimistic (opt : Message) (prev : list Message)
  : list Message :=
  List.filter (fun msg => negb (String.eqb (message_id msg) (message_id opt))) prev.

(** The [catch] branch followed by [finally]. *)
Definition handleSendMessage_reject (opt : Message) (st : State)
  : State * list Call :=
  (mkState (remove_optimistic opt (messages st)) (loading st)
           (Some "Failed to send message. Please try again.") (replyTo st)
           (isTyping st) false,
   []).

(** Number of list entries carrying identifier [id]. *)
Definition count_id (id : string) (l : list Message) : nat :=
  length (List.filter (fun m => String.eqb (message_id m) id) l).

(** ** handleEditMessage, handleDeleteMessage, handleReply *)

(** The durable calls of the edit and delete handlers. *)
Inductive MessageCall :=
| ApiEditMessage (messageId : string) (text : string)
| ApiDeleteMessage (messageId : string).

Definition handleEditMessage_start (messageId text : string)
  : list MessageCall :=
  [ApiEditMessage messageId text].

(** [prev.map(msg => msg.message_id === messageId ? updatedMessage : msg)] *)
Definition handleEditMessage_resolve (messageId : string)
    (updatedMessage : Message) (st : State) : State :=
  set_messages
    (List.map (fun msg =>
                 if String.eqb (message_id msg) messageId
                 then updatedMessage else msg)) st.

Definition handleEditMessage_reject (st : State) : State :=
  mkState (messages st) (loading st) (Some "Failed to edit message")
          (replyTo st) (isTyping st) (isSending st).

(** [confirmed] is the answer to [window.confirm]; a refusal returns before
    any call. *)
Definition handleDeleteMessage_start (confirmed : bool) (messageId : string)
  : list MessageCall :=
  if confirmed then [ApiDeleteMessage messageId] else [].

(** [prev.filter(msg => msg.message_id !== messageId)] *)
Definition handleDeleteMessage_resolve (messageId : string) (st : State)
  : State :=
  set_messages
    (List.filter (fun msg => negb (String.eqb (message_id msg) messageId))) st.

Definition handleDeleteMessage_reject (st : State) : State :=
  mkState (messages st) (loading st) (Some "Failed to delete message")
          (replyTo st) (isTyping st) (isSending st).

Definition handleReply (message : Message) (st : State) : State :=
  mkState (messages st) (loading st) (error st) (Some message)
          (isTyping st) (isSending st).

Definition handleCancelReply (st : State) : State :=
  mkState (messages st) (loading st) (error st) None
          (isTyping st) (isSending st).

(** A run of the push handler over the events the provider hands it, in
    order. *)
Definition deliver (p : Props) (ws : list WsMessage) (st : State) : State :=
  fold_left (fun s w => state_after (onWsMessage p w s) s) ws st.

(** The identifiers of the displayed messages, in display order. *)
Definition ids (l : list Message) : list string := List.map message_id l.

End ChatWindow.

(* ===================================================================== *)
(** * components/Chat/MessageInput.jsx *)
(* ===================================================================== *)

Module MessageInput.

Record State := mkState {
  message : string;
  isTyping : bool
}.

(** [onSend(trimmedMessage, replyTo?.message_id)] *)
Record OnSend := mkOnSend {
  sent_content : string;
  sent_replyToId : option string
}.

(** [handleSend]: [disabled] and [replyTo] are props. *)
Definition handleSend (disabled : bool) (replyTo : option ChatWindow.Message)
    (st : State) : State * option OnSend :=
  let trimmedMessage := JS.trim (message st) in
  if negb (JS.truthy trimmedMessage) || disabled then (st, None)
  else (mkState "" false,
        Some (mkOnSend trimmedMessage
                       (option_map ChatWindow.message_id replyTo))).

(** The input as [ChatWindow] mounts it: [onSend] is [handleSendMessage],
    [disabled] is [isSending] and [replyTo] is the reply target, all three
    of one render of the window, which saw the state [seen]; [win] is the
    window state when the send is made.  Returns both states and the calls
    made by the window. *)
Definition send_from_input (p : ChatWindow.Props) (clk : ChatWindow.Clock)
    (seen : ChatWindow.State) (inp : State) (win : ChatWindow.State)
  : State * ChatWindow.State * list ChatWindow.Call :=
  match handleSend (ChatWindow.isSending seen) (ChatWindow.replyTo seen) inp with
  | (inp', None) => (inp', win, [])
  | (inp', Some call) =>
      let '(win', calls) :=
        ChatWindow.handleSendMessage_sync p clk (sent_content call)
          (sent_replyToId call) (ChatWindow.isSending seen) win in
      (inp', win', calls)
  end.

End MessageInput.

(* ===================================================================== *)
(** * context/WebSocketContext.jsx *)
(* ===================================================================== *)

Module WebSocketContext.

(** ** Outgoing events *)

Inductive Data :=
| ChatData (recipient content : string) (reply_to : option string)
| TypingData (recipient : string) (is_typing : bool)
| MarkData (message_id sender : string)
| EmptyData.

(** The payload [{type, data, timestamp}] written to the socket. *)
Record Payload := mkPayload {
  p_type : string;
  p_data : Data;
  p_timestamp : string
}.

(** [sendMessage(type, data)]: the frame put on the socket, or [None] when
    there is no open socket (an error is logged). *)
Definition sendMessage (socketOpen : bool) (iso : string) (type : string)
    (data : Data) : option Payload :=
  if socketOpen then Some (mkPayload type data iso) else None.

Definition sendChatMessage (socketOpen : bool) (iso : string)
    (recipient content : string) (replyTo : option string) :=
  sendMessage socketOpen iso "new_message" (ChatData recipient content replyTo).

Definition markAsDelivered (socketOpen : bool) (iso : string)
    (messageId senderEmail : string) :=
  sendMessage socketOpen iso "mark_delivered" (MarkData messageId senderEmail).

Definition markAsRead (socketOpen : bool) (iso : string)
    (messageId senderEmail : string) :=
  sendMessage socketOpen iso "mark_read" (MarkData messageId senderEmail).

(** The frames a list of [ChatWindow] calls puts on the push channel. *)
Definition frame_of_call (socketOpen : bool) (iso : string)
    (c : ChatWindow.Call) : option Payload :=
  match c with
  | ChatWindow.WsSendChatMessage to text reply =>
      sendChatMessage socketOpen iso to text reply
  | ChatWindow.WsMarkAsRead id s => markAsRead socketOpen iso id s
  | ChatWindow.WsMarkAsDelivered id s => markAsDelivered socketOpen iso id s
  | _ => None
  end.

(** ** The reconnect machine *)

Definition maxReconnectAttempts : nat := 5.

(** The delay given to [setTimeout] in [ws.onclose], in milliseconds. *)
Definition reconnectDelay : N := 3000.

(** A socket created by [connect] and not yet closed. *)
Inductive ReadyState := CONNECTING | OPEN.

(** [reconnectAttemptsRef.current], [isConnected], the sockets created by
    [connect] that have not closed yet, and the delays of the pending
    [setTimeout] callbacks. *)
Record Conn := mkConn {
  reconnectAttempts : nat;
  isConnected : bool;
  sockets : list ReadyState;
  timers : list N
}.

(** [connect()]: [ready] tells whether a user and a token are present and the
    socket could be constructed; otherwise [connect] returns without one. *)
Definition connect (ready : bool) (c : Conn) : Conn :=
  if ready
  then mkConn (reconnectAttempts c) (isConnected c)
              (sockets c ++ [CONNECTING]) (timers c)
  else c.

(** The state right after the provider's first [connect()]. *)
Definition initial : Conn := connect true (mkConn 0 false [] []).

(** [ws.onopen] of socket [i]. *)
Definition onopen (i : nat) (c : Conn) : Conn :=
  mkConn 0 true (<[i := OPEN]> (sockets c)) (timers c).

(** [ws.onclose] of socket [i]. *)
Definition onclose (i : nat) (c : Conn) : Conn :=
  mkConn (reconnectAttempts c) false (delete i (sockets c))
         (if (reconnectAttempts c <? maxReconnectAttempts)%nat
          then timers c ++ [reconnectDelay]
          else timers c).

(** The callback given to [setTimeout], for pending timer [i]. *)
Definition ontimeout (i : nat) (ready : bool) (c : Conn) : Conn :=
  connect ready
    (mkConn (reconnectAttempts c + 1) (isConnected c) (sockets c)
            (delete i (timers c))).

(** What the browser can do to the machine. *)
Inductive Event :=
| Opened (i : nat)                   (* socket [i] completes its handshake *)
| Closed (i : nat)                   (* socket [i] closes or fails *)
| TimerFired (i : nat) (ready : bool).

(** One event; [None] when the event cannot occur in [c] (no such socket,
    a socket that is already open, no such timer). *)
Definition step (e : Event) (c : Conn) : option Conn :=
  match e with
  | Opened i =>
      match sockets c !! i with
      | Some CONNECTING => Some (onopen i c)
      | _ => None
      end
  | Closed i =>
      match sockets c !! i with
      | Some _ => Some (onclose i c)
      | None => None
      end
  | TimerFired i ready =>
      match timers c !! i with
      | Some _ => Some (ontimeout i ready c)
      | None => None
      end
  end.

Fixpoint run (es : list Event) (c : Conn) : option Conn :=
  match es with
  | [] => Some c
  | e :: es' =>
      match step e c with
      | Some c' => run es' c'
      | None => None
      end
  end.

(** States the machine reaches from the first [connect()]. *)
Definition reachable (c : Conn) : Prop :=
  exists es, run es initial = Some c.

(** The shape of the states of one chain of reconnects: at most one socket
    and no timer, or no socket and the one timer of a reconnect that is
    still allowed. *)
Definition single_chain (c : Conn) : Prop :=
  (timers c = [] /\ (length (sockets c) <= 1)%nat
   /\ (reconnectAttempts c <= maxReconnectAttempts)%nat)
  \/ (timers c = [reconnectDelay] /\ sockets c = []
      /\ (reconnectAttempts c < maxReconnectAttempts)%nat).

(** Five failed attempts in a row, from the first [connect()]. *)
Definition five_failures : list Event :=
  [Closed 0; TimerFired 0 true; Closed 0; TimerFired 0 true;
   Closed 0; TimerFired 0 true; Closed 0; TimerFired 0 true;
   Closed 0; TimerFired 0 true].

(** ** The guard of [connect] *)

(** [STORAGE_KEYS.TOKEN] of utils/constants.js. *)
Definition TOKEN : string := "whatsease_token".

(** [localStorage.getItem(key)] read as a condition: a missing key gives
    null, an empty value is falsy too. *)
Definition stored (ls : gmap string string) (key : string) : bool :=
  match ls !! key with
  | Some v => JS.truthy v
  | None => false
  end.

(** [if (!user) return; if (!token) return;]: whether [connect] goes on to
    build a socket. *)
Definition connect_guard (user : option string) (ls : gmap string string)
  : bool :=
  match user with
  | Some _ => stored ls TOKEN
  | None => false
  end.

(** [connect()] as the provider calls it, reading the user and the local
    storage (the socket constructor is taken to succeed). *)
Definition connect_with (user : option string) (ls : gmap string string)
    (c : Conn) : Conn :=
  connect (connect_guard user ls) c.

(** The number of reconnect timers fired in a list of events. *)
Definition fired (es : list Event) : nat :=
  length (List.filter (fun e => match e with TimerFired _ _ => true
                                        | _ => false end) es).

Definition has_open (es : list Event) : bool :=
  existsb (fun e => match e with Opened _ => true | _ => false end) es.

End WebSocketContext.

(* ===================================================================== *)
(** * components/Chat/ChatList.jsx *)
(* ===================================================================== *)

Module ChatList.

Definition BOT_EMAIL : string := "bot@whatsease.com".

(** A chat summary as the chat-list endpoint returns it. *)
Record Chat := mkChat {
  id : option string;
  other_user_email : string;
  other_user_username : string;
  other_user_avatar : option string;
  last_message : option string;
  last_message_time : string;
  unread_count : N;
  is_online : bool
}.

Definition is_bot (chat : Chat) : bool :=
  String.eqb (other_user_email chat) BOT_EMAIL.

(** The default entry built when the response has no bot chat; [iso] is
    [new Date().toISOString()]. *)
Definition defaultBotChat (iso : string) : Chat :=
  mkChat (Some "bot-chat") BOT_EMAIL "AI Assistant" None
         (Some "Hello! 👋 How can I help you today?") iso 0 true.

(** [finalBotChat.is_online = true] *)
Definition set_online (chat : Chat) : Chat :=
  mkChat (id chat) (other_user_email chat) (other_user_username chat)
         (other_user_avatar chat) (last_message chat)
         (last_message_time chat) (unread_count chat) true.

(** The array returned by the [processedChats] memo.  Computing it also
    writes [is_online = true] into the entry found in [chats]; what that
    leaves in [chats] is [chats_after_processing] below. *)
Definition processedChats (iso : string) (chats : list Chat) : list Chat :=
  let botChat := List.find is_bot chats in
  let regularChats := List.filter (fun chat => negb (is_bot chat)) chats in
  let finalBotChat :=
    match botChat with
    | Some b => b
    | None => defaultBotChat iso
    end in
  set_online finalBotChat :: regularChats.

(** The predicate of the search filter. *)
Definition matches (searchQuery : string) (chat : Chat) : bool :=
  let q := JS.toLowerCase searchQuery in
  JS.includes (JS.toLowerCase (other_user_username chat)) q
  || JS.includes (JS.toLowerCase (other_user_email chat)) q
  || match last_message chat with
     | Some m => JS.truthy m && JS.includes (JS.toLowerCase m) q
     | None => false
     end.

(** The list the component renders (when not loading): the processed chats
    that match the search query. *)
Definition filteredChats (iso searchQuery : string) (chats : list Chat)
  : list Chat :=
  List.filter (matches searchQuery) (processedChats iso chats).

(** Number of entries of the automated correspondent. *)
Definition count_bot (l : list Chat) : nat :=
  length (List.filter is_bot l).

(** What computing [processedChats] leaves in the array it was given: the
    entry found by [chats.find] is the object held in that array, and
    [finalBotChat.is_online = true] writes into it; the other entries are
    not touched (the built-in entry is a fresh object). *)
Fixpoint chats_after_processing (chats : list Chat) : list Chat :=
  match chats with
  | [] => []
  | chat :: rest =>
      if is_bot chat then set_online chat :: rest
      else chat :: chats_after_processing rest
  end.

(** The predicate of the search filter, with [String.prototype.toLowerCase]
    as a parameter. *)
Definition matches_with (lower : string -> string) (searchQuery : string)
    (chat : Chat) : bool :=
  let q := lower searchQuery in
  JS.includes (lower (other_user_username chat)) q
  || JS.includes (lower (other_user_email chat)) q
  || match last_message chat with
     | Some m => JS.truthy m && JS.includes (lower m) q
     | None => false
     end.

Definition filteredChats_with (lower : string -> string)
    (iso searchQuery : string) (chats : list Chat) : list Chat :=
  List.filter (matches_with lower searchQuery) (processedChats iso chats).

End ChatList.

(* ===================================================================== *)
(** * components/Chat/ChatDashboard.jsx *)
(* ===================================================================== *)

Module ChatDashboard.

Import ChatList.

Record State := mkState {
  chats : list Chat;
  selectedChat : option Chat;
  onlineUsers : gset string
}.

Definition with_online (b : bool) (chat : Chat) : Chat :=
  mkChat (id chat) (other_user_email chat) (other_user_username chat)
         (other_user_avatar chat) (last_message chat)
         (last_message_time chat) (unread_count chat) b.

(** The [updatedChat] of [handleChatSelect] (and of the route effect). *)
Definition updatedChat (online : gset string) (chat : Chat) : Chat :=
  with_online
    (if String.eqb (other_user_email chat) BOT_EMAIL then true
     else bool_decide (other_user_email chat ∈ online) || is_online chat)
    chat.

(** [handleChatSelect]: the new state and the route navigated to. *)
Definition handleChatSelect (chat : Chat) (st : State) : State * string :=
  (mkState (chats st) (Some (updatedChat (onlineUsers st) chat))
           (onlineUsers st),
   "/chat/" ++ other_user_email chat).

(** The [user_status_change] branch of the dashboard's push handler, for an
    event carrying [{user_email, is_online}]. *)
Definition onUserStatusChange (user_email : string) (online : bool)
    (st : State) : State :=
  mkState
    (List.map (fun chat =>
                 if String.eqb (other_user_email chat) user_email
                 then with_online online chat else chat) (chats st))
    (match selectedChat st with
     | Some sel =>
         if String.eqb (other_user_email sel) user_email
         then Some (with_online online sel) else Some sel
     | None => None
     end)
    (if online then {[user_email]} ∪ onlineUsers st
     else onlineUsers st ∖ {[user_email]}).

(** The chat list the dashboard renders from its state. *)
Definition rendered (iso searchQuery : string) (st : State) : list Chat :=
  filteredChats iso searchQuery (chats st).

(** ** loadChatList and the route effect *)

(** The [online] set [loadChatList] builds with [forEach]. *)
Definition online_of (chatList : list Chat) : gset string :=
  fold_left (fun online chat =>
               if is_online chat then {[other_user_email chat]} ∪ online
               else online) chatList ∅.

Definition loadChatList_resolve (chatList : list Chat) (st : State) : State :=
  mkState chatList (selectedChat st) (online_of chatList).

(** The effect on [userEmail, chats, onlineUsers]; [userEmail] is the route
    parameter. *)
Definition routeEffect (userEmail : option string) (st : State) : State :=
  match userEmail with
  | Some u =>
      if JS.truthy u && (0 <? length (chats st))%nat then
        match List.find (fun c => String.eqb (other_user_email c) u)
                        (chats st) with
        | Some chat =>
            mkState (chats st) (Some (updatedChat (onlineUsers st) chat))
                    (onlineUsers st)
        | None => st
        end
      else st
  | None => st
  end.

(** A render of the chat list on the dashboard's state: [ChatList] computes
    [processedChats] on the [chats] array of the state, which writes into
    the entry of the automated correspondent held there. *)
Definition renderChatList (st : State) : State :=
  mkState (chats_after_processing (chats st)) (selectedChat st)
          (onlineUsers st).

(** What happens to the dashboard between two user actions: presence
    events and renders, in any order. *)
Inductive Step :=
| StatusChange (user_email : string) (online : bool)
| Rendered.

Definition step (e : Step) (st : State) : State :=
  match e with
  | StatusChange u b => onUserStatusChange u b st
  | Rendered => renderChatList st
  end.

Definition steps (l : list Step) (st : State) : State :=
  fold_left (fun s e => step e s) l st.

End ChatDashboard.

(* ===================================================================== *)
(** * utils/DateUtils.js *)
(* ===================================================================== *)

Module DateUtils.

(** Numbers, as far as dates see them: time values are integral, so finite
    numbers are integers here. *)
Inductive Num := NaN | Infinite | Int (z : Z).

(** A [Date] object is its time value; [None] is the NaN of an invalid
    date. *)
Definition Date := option Z.

(** What [new Date(v)] does on a value of another kind: it throws, or it
    builds a date. *)
Inductive Construct := Throws | Builds (d : Date).

(** The values [utcToLocal] may be given.  [JOther truthy] stands for any
    other kind of value (object, symbol, bigint): all the function does
    with it is test it and hand it to [new Date], so it is given by its
    truthiness and by what [new Date] does on it. *)
Inductive Value :=
| JUndefined
| JNull
| JBool (b : bool)
| JNum (n : Num)
| JStr (s : string)
| JDate (d : Date)
| JOther (truthy : bool) (c : Construct).

(** What the formatters can print. *)
Inductive Style :=
| TimeHourMinute              (* hour: 2-digit, minute: 2-digit, hour12 *)
| DateShort                   (* month: short, day: numeric, year: numeric *)
| DateTimeShort               (* both of the above, through toLocaleString *)
| WeekdayLong
| WeekdayShort
| MonthLongDay (with_year : bool)
| MonthShortDay.

(** The host: the date parser of [new Date(string)], which is
    implementation-defined outside the ISO format, the clock, the local
    calendar and the en-US formatter. *)
Record Host := mkHost {
  parse : string -> Date;          (* time value of [new Date(s)] *)
  now : Z;                         (* time value of [new Date()] *)
  getFullYear : Z -> Z;            (* local calendar fields of a time value *)
  getMonth : Z -> Z;
  getDate : Z -> Z;
  makeDate : Z -> Z -> Z -> Z;     (* time value of [new Date(y, m, d)] *)
  toLocale : Style -> Z -> string
}.

(** [!v] *)
Definition falsy (v : Value) : bool :=
  match v with
  | JUndefined | JNull => true
  | JBool b => negb b
  | JNum NaN => true
  | JNum (Int z) => (z =? 0)%Z
  | JNum Infinite => false
  | JStr s => JS.is_empty s
  | JDate _ => false
  | JOther t _ => negb t
  end.

(** Time values range over +-8.64e15 ms; beyond that a date is invalid. *)
Definition timeClip (z : Z) : Date :=
  if (Z.abs z <=? 8640000000000000)%Z then Some z else None.

Section WithHost.

Variable h : Host.

(** The [date] assigned inside the [try] block, or [Throws]. *)
Definition construct (v : Value) : Construct :=
  match v with
  | JStr s =>
      if JS.endsWithChar s "Z"%char
      then Builds (parse h s)
      else Builds (parse h (s ++ "Z"))
  | JDate d => Builds d
  | JUndefined => Builds None
  | JNull => Builds (Some 0%Z)
  | JBool b => Builds (Some (if b then 1%Z else 0%Z))
  | JNum NaN | JNum Infinite => Builds None
  | JNum (Int z) => Builds (timeClip z)
  | JOther _ c => c
  end.

(** [utcToLocal]: [None] is [null], [Some t] a valid date of time value
    [t]. *)
Definition utcToLocal (utcTimestamp : Value) : option Z :=
  if falsy utcTimestamp then None
  else
    match construct utcTimestamp with
    | Throws => None                       (* catch *)
    | Builds None => None                  (* isNaN(date.getTime()) *)
    | Builds (Some t) => Some t
    end.

Definition formatTime (timestamp : Value) : string :=
  match utcToLocal timestamp with
  | None => ""
  | Some date => toLocale h TimeHourMinute date
  end.

Definition formatDate (timestamp : Value) : string :=
  match utcToLocal timestamp with
  | None => ""
  | Some date => toLocale h DateShort date
  end.

Definition formatRelativeTime (timestamp : Value) : string :=
  match utcToLocal timestamp with
  | None => ""
  | Some date =>
      let diffInMs := (now h - date)%Z in
      let diffInMinutes := (diffInMs / (1000 * 60))%Z in
      let diffInHours := (diffInMs / (1000 * 60 * 60))%Z in
      let diffInDays := (diffInMs / (1000 * 60 * 60 * 24))%Z in
      if (diffInMinutes <? 1)%Z then "Just now"
      else if (diffInMinutes <? 60)%Z then pretty diffInMinutes ++ "m ago"
      else if (diffInHours <? 24)%Z then pretty diffInHours ++ "h ago"
      else if (diffInDays =? 1)%Z then "Yesterday"
      else if (diffInDays <? 7)%Z then pretty diffInDays ++ "d ago"
      else formatDate timestamp
  end.

Definition formatDateTime (timestamp : Value) : string :=
  match utcToLocal timestamp with
  | None => ""
  | Some date => toLocale h DateTimeShort date
  end.

Definition isSameDay (timestamp1 timestamp2 : Value) : bool :=
  match utcToLocal timestamp1, utcToLocal timestamp2 with
  | Some date1, Some date2 =>
      (getFullYear h date1 =? getFullYear h date2)%Z
      && (getMonth h date1 =? getMonth h date2)%Z
      && (getDate h date1 =? getDate h date2)%Z
  | _, _ => false
  end.

Definition getDateSeparator (timestamp : Value) : string :=
  match utcToLocal timestamp with
  | None => ""
  | Some date =>
      let today :=
        makeDate h (getFullYear h (now h)) (getMonth h (now h))
                 (getDate h (now h)) in
      let messageDate :=
        makeDate h (getFullYear h date) (getMonth h date) (getDate h date) in
      let diffInDays := ((today - messageDate) / (1000 * 60 * 60 * 24))%Z in
      if (diffInDays =? 0)%Z then "Today"
      else if (diffInDays =? 1)%Z then "Yesterday"
      else if (diffInDays <? 7)%Z then toLocale h WeekdayLong date
      else toLocale h
             (MonthLongDay (negb (getFullYear h date =? getFullYear h (now h))%Z))
             date
  end.

Definition formatChatTimestamp (timestamp : Value) : string :=
  match utcToLocal timestamp with
  | None => ""
  | Some date =>
      let diffInMs := (now h - date)%Z in
      let diffInMinutes := (diffInMs / (1000 * 60))%Z in
      let diffInHours := (diffInMs / (1000 * 60 * 60))%Z in
      let diffInDays := (diffInMs / (1000 * 60 * 60 * 24))%Z in
      if (diffInMinutes <? 1)%Z then "Just now"
      else if (diffInMinutes <? 60)%Z then pretty diffInMinutes ++ "m ago"
      else if (diffInHours <? 24)%Z then pretty diffInHours ++ "h ago"
      else if (diffInDays =? 1)%Z then "Yesterday"
      else if (diffInDays <? 7)%Z then toLocale h WeekdayShort date
      else toLocale h MonthShortDay date
  end.

Definition plural (n : Z) : string := if (1 <? n)%Z then "s" else "".

Definition getTimeAgo (timestamp : Value) : string :=
  match utcToLocal timestamp with
  | None => ""
  | Some date =>
      let diffInSeconds := ((now h - date) / 1000)%Z in
      if (diffInSeconds <? 60)%Z then "just now"
      else if (diffInSeconds <? 3600)%Z then
        let minutes := (diffInSeconds / 60)%Z in
        pretty minutes ++ " minute" ++ plural minutes ++ " ago"
      else if (diffInSeconds <? 86400)%Z then
        let hours := (diffInSeconds / 3600)%Z in
        pretty hours ++ " hour" ++ plural hours ++ " ago"
      else if (diffInSeconds <? 604800)%Z then
        let days := (diffInSeconds / 86400)%Z in
        pretty days ++ " day" ++ plural days ++ " ago"
      else formatDate timestamp
  end.

(** The seven formatting utilities, by name. *)
Definition formatters : list (string * (Value -> string)) :=
  [ ("formatTime", formatTime); ("formatDate", formatDate);
    ("formatRelativeTime", formatRelativeTime);
    ("formatDateTime", formatDateTime);
    ("formatChatTimestamp", formatChatTimestamp);
    ("getTimeAgo", getTimeAgo); ("getDateSeparator", getDateSeparator) ].




End WithHost.

End DateUtils.

(* ===================================================================== *)
(** * Concrete conversations used by the examples *)
(* ===================================================================== *)

Module Scenario.

Import ChatWindow.

(** Alice has her conversation with Bob open. *)
Definition alice_bob : Props := mkProps "bob@example.com" "alice@example.com".

Definition idle : State := mkState [] false None None false false.

Definition clock : Clock := mkClock 1700000000000 "2023-11-14T22:13:20.000Z".

(** The authoritative record of Alice's "hello", as the durable call
    returns it and as the push channel echoes it. *)
Definition m42 : Message :=
  mkMessage "m42" "alice@example.com" "bob@example.com" "hello"
            "2023-11-14T22:13:20.100Z" "Sent" None false.

(** A message Bob sends to Alice. *)
Definition m7 : Message :=
  mkMessage "m7" "bob@example.com" "alice@example.com" "hi"
            "2023-11-14T22:10:00.000Z" "Sent" None false.

(** An older message of the conversation. *)
Definition m3 : Message :=
  mkMessage "m3" "alice@example.com" "bob@example.com" "ping"
            "2023-11-14T22:00:00.000Z" "Read" None false.

(** A message of another conversation. *)
Definition m9 : Message :=
  mkMessage "m9" "carol@example.com" "alice@example.com" "lunch?"
            "2023-11-14T22:11:00.000Z" "Sent" None false.

(** The push event [{type: 'new_message', data: m}]. *)
Definition push (m : Message) : WsMessage :=
  mkWsMessage "new_message" (Some (mkWsData m false))
              (mkMessage "" "" "" "" "" "" None false).

(** The placeholder of Alice's "hello". *)
Definition placeholder : Message :=
  optimisticMessage alice_bob clock "hello" None.



(** A chat summary for Alice's chat with Bob, and a response without a bot
    entry. *)
Definition bob_chat : ChatList.Chat :=
  ChatList.mkChat (Some "c1") "bob@example.com" "Bob" None (Some "hi")
                  "2023-11-14T22:10:00.000Z" 1 false.

(** A bot entry the server reports offline. *)
Definition bot_offline : ChatList.Chat :=
  ChatList.mkChat (Some "c0") "bot@whatsease.com" "AI Assistant" None None
                  "2023-11-14T21:00:00.000Z" 0 false.

(** A host whose parser knows one timestamp. *)
Definition host : DateUtils.Host :=
  DateUtils.mkHost
    (fun s => if String.eqb s "2023-11-14T22:13:20Z"
              then Some 1700000000000%Z else None)
    1700000060000%Z
    (fun _ => 2023%Z) (fun _ => 10%Z) (fun _ => 14%Z)
    (fun _ _ _ => 1699920000000%Z)
    (fun _ _ => "formatted").

End Scenario.

(* ===================================================================== *)
(** * components/Chat/Message.jsx *)
(* ===================================================================== *)

Module MessageView.

Record State := mkState {
  showMenu : bool;
  isEditing : bool;
  editContent : string
}.

(** [onEdit(message.message_id, editContent.trim())] *)
Record OnEdit := mkOnEdit {
  edit_id : string;
  edit_content : string
}.

Definition handleEdit (st : State) : State :=
  mkState false true (editContent st).

Definition handleSaveEdit (message : ChatWindow.Message) (st : State)
  : State * option OnEdit :=
  (mkState (showMenu st) false (editContent st),
   if JS.truthy (JS.trim (editContent st))
      && negb (String.eqb (editContent st) (ChatWindow.content message))
   then Some (mkOnEdit (ChatWindow.message_id message)
                       (JS.trim (editContent st)))
   else None).

Definition handleCancelEdit (message : ChatWindow.Message) (st : State)
  : State :=
  mkState (showMenu st) false (ChatWindow.content message).

(** [handleKeyPress] of the edit box. *)
Definition handleKeyPress (key : string) (shiftKey : bool)
    (message : ChatWindow.Message) (st : State) : State * option OnEdit :=
  if String.eqb key "Enter" && negb shiftKey then handleSaveEdit message st
  else if String.eqb key "Escape" then (handleCancelEdit message st, None)
  else (st, None).

(** The durable call [ChatWindow] makes for an [onEdit]. *)
Definition edit_calls (e : option OnEdit) : list ChatWindow.MessageCall :=
  match e with
  | Some c => ChatWindow.handleEditMessage_start (edit_id c) (edit_content c)
  | None => []
  end.

End MessageView.

(* ===================================================================== *)
(** * context/AuthContext.jsx and the storage keys *)
(* ===================================================================== *)

Module AuthContext.

(** A user object is kept as its JSON text. *)
Record State := mkState {
  user : option string;
  loading : bool;
  isAuthenticated : bool
}.

Record LoginResponse := mkLoginResponse {
  access_token : option string;
  resp_user : option string
}.

(** The [finally] of [logout], the [catch] of [initAuth] and the 401 branch
    of [apiRequest] all remove the same two keys. *)
Definition clear_auth (ls : gmap string string) : gmap string string :=
  delete "user" (delete "accessToken" ls).

(** [login] after the request resolved.  Without an access token the
    function throws inside its own [try]; the [catch] resets the state. *)
Definition login_resolve (r : LoginResponse) (ls : gmap string string)
    (st : State) : gmap string string * State :=
  match access_token r with
  | Some tok =>
      if JS.truthy tok then
        match resp_user r with
        | Some u =>
            (<["user" := u]> (<["accessToken" := tok]> ls),
             mkState (Some u) (loading st) true)
        | None =>
            (<["accessToken" := tok]> ls,
             mkState (user st) (loading st) true)
        end
      else (ls, mkState None (loading st) false)
  | None => (ls, mkState None (loading st) false)
  end.

Definition login_reject (ls : gmap string string) (st : State)
  : gmap string string * State :=
  (ls, mkState None (loading st) false).

(** [logout]: the [finally] block runs whether or not the request failed. *)
Definition logout (ls : gmap string string) (st : State)
  : gmap string string * State :=
  (clear_auth ls, mkState None (loading st) false).

(** [initAuth]; [current] is the outcome of [getCurrentUser] ([None] when
    it is rejected), used only when a token and a saved user are stored. *)
Definition initAuth (current : option string) (ls : gmap string string)
    (st : State) : gmap string string * State :=
  if WebSocketContext.stored ls "accessToken"
     && WebSocketContext.stored ls "user"
  then
    match current with
    | Some u => (ls, mkState (Some u) false true)
    | None => (clear_auth ls, mkState None false false)
    end
  else (ls, mkState (user st) false (isAuthenticated st)).

Definition updateUser (updatedUser : string) (ls : gmap string string)
    (st : State) : gmap string string * State :=
  (<["user" := updatedUser]> ls,
   mkState (Some updatedUser) (loading st) (isAuthenticated st)).

(** What can happen to the stored session. *)
Inductive Op :=
| InitAuth (current : option string)
| LoginResolved (r : LoginResponse)
| LoginRejected
| Logout
| UpdateUser (updatedUser : string)
| Unauthorized.                       (* a 401 answer seen by apiRequest *)

Definition apply (op : Op) (s : gmap string string * State)
  : gmap string string * State :=
  match op with
  | InitAuth current => initAuth current (fst s) (snd s)
  | LoginResolved r => login_resolve r (fst s) (snd s)
  | LoginRejected => login_reject (fst s) (snd s)
  | Logout => logout (fst s) (snd s)
  | UpdateUser u => updateUser u (fst s) (snd s)
  | Unauthorized => (clear_auth (fst s), snd s)
  end.

Definition run (ops : list Op) (s : gmap string string * State)
  : gmap string string * State :=
  fold_left (fun s op => apply op s) ops s.

End AuthContext.

(* ===================================================================== *)
(** * components/Chat/ChatList.jsx: the entry formatters *)
(* ===================================================================== *)

Module ChatListView.

(** For [truncateMessage] a JavaScript string is the list of its UTF-16
    code units, which is what [length] counts and [substring] cuts.  The
    code units of an ASCII literal are its bytes. *)
Definition units_of_ascii (s : string) : list N :=
  List.map N_of_ascii (list_ascii_of_string s).

(** [truncateMessage(message, maxLength)]; [None] is null or undefined. *)
Definition truncateMessage (message : option (list N)) (maxLength : nat)
  : list N :=
  match message with
  | None => units_of_ascii "No messages yet"
  | Some [] => units_of_ascii "No messages yet"
  | Some m =>
      if (maxLength <? length m)%nat
      then take maxLength m ++ units_of_ascii "..."
      else m
  end.

(** [formatTimestamp]: [timestamp] is [None] for null or undefined.  The
    quotients [diffInHours] and [diffInDays] are floating-point numbers in
    the source; on a difference of integral milliseconds their comparisons
    with 1, 24 and 7 and their floors are those of the integer quotients
    used here.  An unparsable timestamp makes every comparison false and
    the invalid date prints as "Invalid Date". *)
Definition formatTimestamp (h : DateUtils.Host) (timestamp : option string)
  : string :=
  match timestamp with
  | None => ""
  | Some ts =>
      if JS.truthy ts then
        match DateUtils.parse h ts with
        | None => "Invalid Date"
        | Some date =>
            let diffInMs := (DateUtils.now h - date)%Z in
            if (diffInMs <? 1000 * 60 * 60)%Z then
              let minutes := (diffInMs / (1000 * 60))%Z in
              if (minutes <? 1)%Z then "Just now"
              else (pretty minutes ++ "m ago")%string
            else if (diffInMs <? 1000 * 60 * 60 * 24)%Z then
              (pretty (diffInMs / (1000 * 60 * 60))%Z ++ "h ago")%string
            else if (diffInMs <? 1000 * 60 * 60 * 24 * 7)%Z then
              (pretty (diffInMs / (1000 * 60 * 60 * 24))%Z ++ "d ago")%string
            else DateUtils.toLocale h DateUtils.MonthShortDay date
        end
      else ""
  end.

End ChatListView.

(* ===================================================================== *)
(** * components/Chat/ChatWindow.jsx: the date separators *)
(* ===================================================================== *)

Module WindowDates.

(** The helper [isSameDay] at the end of ChatWindow.jsx: it parses the
    timestamps as they are; the calendar fields of an invalid date are NaN
    and NaN is equal to nothing. *)
Definition isSameDay (h : DateUtils.Host) (timestamp1 timestamp2 : string)
  : bool :=
  match DateUtils.parse h timestamp1, DateUtils.parse h timestamp2 with
  | Some date1, Some date2 =>
      (DateUtils.getFullYear h date1 =? DateUtils.getFullYear h date2)%Z
      && (DateUtils.getMonth h date1 =? DateUtils.getMonth h date2)%Z
      && (DateUtils.getDate h date1 =? DateUtils.getDate h date2)%Z
  | _, _ => false
  end.

(** The helper [getDateSeparator] of ChatWindow.jsx. *)
Definition getDateSeparator (h : DateUtils.Host) (timestamp : string)
  : string :=
  match DateUtils.parse h timestamp with
  | None => "Invalid Date"
  | Some date =>
      let n := DateUtils.now h in
      let today :=
        DateUtils.makeDate h (DateUtils.getFullYear h n)
          (DateUtils.getMonth h n) (DateUtils.getDate h n) in
      let messageDate :=
        DateUtils.makeDate h (DateUtils.getFullYear h date)
          (DateUtils.getMonth h date) (DateUtils.getDate h date) in
      let diffInDays := ((today - messageDate) / (1000 * 60 * 60 * 24))%Z in
      if (diffInDays =? 0)%Z then "Today"
      else if (diffInDays =? 1)%Z then "Yesterday"
      else if (diffInDays <? 7)%Z
      then DateUtils.toLocale h DateUtils.WeekdayLong date
      else DateUtils.toLocale h
             (DateUtils.MonthLongDay
                (negb (DateUtils.getFullYear h date
                       =? DateUtils.getFullYear h n)%Z))
             date
  end.

(** The separators of the rendered list: for each message, the separator
    text shown above it, if any ([index === 0 || !isSameDay(previous,
    message)]). *)
Fixpoint separators_after (h : DateUtils.Host) (previous : string)
    (l : list ChatWindow.Message) : list (option string) :=
  match l with
  | [] => []
  | m :: l' =>
      (if isSameDay h previous (ChatWindow.timestamp m) then None
       else Some (getDateSeparator h (ChatWindow.timestamp m)))
      :: separators_after h (ChatWindow.timestamp m) l'
  end.

Definition separators (h : DateUtils.Host) (l : list ChatWindow.Message)
  : list (option string) :=
  match l with
  | [] => []
  | m :: l' =>
      Some (getDateSeparator h (ChatWindow.timestamp m))
      :: separators_after h (ChatWindow.timestamp m) l'
  end.

End WindowDates.

(* ===================================================================== *)
(** * Properties *)
(* ===================================================================== *)

Local Open Scope list_scope.

(** ** String primitives *)

Section StripFacts.

Import JS.

Variable p1 : ascii -> bool.
Variable p2 : ascii -> ascii -> bool.
Variable p3 : ascii -> ascii -> ascii -> bool.

Lemma strip_cases (P : list ascii -> Prop) :
  (forall l, starts p1 p2 p3 l = false -> P l) ->
  (forall a r, p1 a = true -> P r -> P (a :: r)) ->
  (forall a b r, p1 a = false -> p2 a b = true -> P r -> P (a :: b :: r)) ->
  (forall a b c r, p1 a = false -> p2 a b = false -> p3 a b c = true ->
                   P r -> P (a :: b :: c :: r)) ->
  forall l, P l.
Proof.
  intros H0 H1 H2 H3 l.
  assert (H : forall n l, (length l <= n)%nat -> P l).
  { clear l. induction n as [|n IH]; intros l Hl.
    - destruct l; [|simpl in Hl; lia]. apply H0. reflexivity.
    - destruct l as [|a r]; [apply H0; reflexivity|].
      destruct (p1 a) eqn:E1.
      { apply H1; [exact E1|]. apply IH. simpl in Hl. lia. }
      destruct r as [|b r]; [apply H0; simpl; rewrite E1; reflexivity|].
      destruct (p2 a b) eqn:E2.
      { apply H2; try assumption. apply IH. simpl in Hl. lia. }
      destruct r as [|c r];
        [apply H0; simpl; rewrite E1, E2; reflexivity|].
      destruct (p3 a b c) eqn:E3.
      { apply H3; try assumption. apply IH. simpl in Hl. lia. }
      apply H0. simpl. rewrite E1, E2, E3. reflexivity. }
  apply (H (length l)). lia.
Qed.

Lemma strip_fixed l : starts p1 p2 p3 l = false -> strip p1 p2 p3 l = l.
Proof.
  destruct l as [|a [|b [|c r]]]; simpl; try reflexivity.
  - rewrite orb_false_r. intros ->. reflexivity.
  - intros H. apply orb_false_iff in H as [-> H].
    rewrite orb_false_r in H. rewrite H. reflexivity.
  - intros H. apply orb_false_iff in H as [-> H].
    apply orb_false_iff in H as [-> ->]. reflexivity.
Qed.

Lemma strip_starts l : starts p1 p2 p3 (strip p1 p2 p3 l) = false.
Proof.
  induction l using strip_cases.
  - rewrite strip_fixed; assumption.
  - simpl. rewrite H. assumption.
  - simpl. rewrite H, H0. assumption.
  - simpl. rewrite H, H0, H1. assumption.
Qed.

Lemma strip_idempotent l :
  strip p1 p2 p3 (strip p1 p2 p3 l) = strip p1 p2 p3 l.
Proof. apply strip_fixed, strip_starts. Qed.

Lemma strip_suffix l : exists pre, l = pre ++ strip p1 p2 p3 l.
Proof.
  induction l using strip_cases.
  - exists []. rewrite strip_fixed; [reflexivity|assumption].
  - destruct IHl as [pre E]. exists (a :: pre). simpl. rewrite H.
    f_equal. exact E.
  - destruct IHl as [pre E]. exists (a :: b :: pre). simpl. rewrite H, H0.
    do 2 f_equal. exact E.
  - destruct IHl as [pre E]. exists (a :: b :: c :: pre). simpl.
    rewrite H, H0, H1. do 3 f_equal. exact E.
Qed.

Lemma strip_only l : only p1 p2 p3 l = true -> strip p1 p2 p3 l = [].
Proof.
  induction l using strip_cases.
  - destruct l as [|a [|b [|c r]]]; simpl in *; try reflexivity.
    + rewrite orb_false_r in H. rewrite H. discriminate.
    + apply orb_false_iff in H as [-> H]. rewrite orb_false_r in H.
      rewrite H. discriminate.
    + apply orb_false_iff in H as [-> H].
      apply orb_false_iff in H as [-> ->]. discriminate.
  - simpl. rewrite H. exact IHl.
  - simpl. rewrite H, H0. exact IHl.
  - simpl. rewrite H, H0, H1. exact IHl.
Qed.

Lemma starts_prefix l q :
  starts p1 p2 p3 (l ++ q) = false -> starts p1 p2 p3 l = false.
Proof.
  destruct l as [|a [|b [|c r]]]; simpl; try reflexivity.
  - intros H. apply orb_false_iff in H as [-> _]. reflexivity.
  - intros H. apply orb_false_iff in H as [-> H].
    destruct q; simpl in H.
    + rewrite orb_false_r in H. rewrite H. reflexivity.
    + apply orb_false_iff in H as [-> _]. reflexivity.
  - intros H. exact H.
Qed.

End StripFacts.

Section JSFacts.

Import JS.

Lemma trimEndBytes_idempotent l : trimEndBytes (trimEndBytes l) = trimEndBytes l.
Proof.
  unfold trimEndBytes. rewrite List.rev_involutive, strip_idempotent.
  reflexivity.
Qed.

Lemma trimEndBytes_prefix l : exists post, l = trimEndBytes l ++ post.
Proof.
  unfold trimEndBytes.
  destruct (strip_suffix ws1 (fun a b => ws2 b a) (fun a b c => ws3 c b a)
              (rev l)) as [pre E].
  exists (rev pre).
  rewrite <- List.rev_app_distr, <- E, List.rev_involutive. reflexivity.
Qed.

Lemma trimBytes_idempotent l :
  trimEndBytes (trimStartBytes (trimEndBytes (trimStartBytes l)))
  = trimEndBytes (trimStartBytes l).
Proof.
  assert (E : trimStartBytes (trimEndBytes (trimStartBytes l))
              = trimEndBytes (trimStartBytes l)).
  { apply strip_fixed.
    destruct (trimEndBytes_prefix (trimStartBytes l)) as [post Hp].
    apply (starts_prefix _ _ _ _ post). rewrite <- Hp.
    apply strip_starts. }
  rewrite E. apply trimEndBytes_idempotent.
Qed.

Lemma trim_idempotent s : trim (trim s) = trim s.
Proof.
  unfold trim, trimEnd, trimStart.
  rewrite !list_ascii_of_string_of_list_ascii, trimBytes_idempotent.
  reflexivity.
Qed.

Lemma trim_whitespace_only s : whitespace_only s = true -> trim s = "".
Proof.
  intros H. unfold trim, trimEnd, trimStart, trimStartBytes.
  rewrite (strip_only _ _ _ _ H). reflexivity.
Qed.

Lemma startsWith_empty s : startsWith s "" = true.
Proof. destruct s; reflexivity. Qed.

Lemma includes_empty s : includes s "" = true.
Proof. destruct s; simpl; reflexivity. Qed.

Lemma truthy_false_empty s : truthy s = false -> s = "".
Proof. destruct s; simpl; [reflexivity|discriminate]. Qed.

Example trim_both_ends : trim "  hi there  " = "hi there".
Proof. reflexivity. Qed.

Example trim_blank : trim "   " = "".
Proof. reflexivity. Qed.

Example trim_no_break_space : trim " " = "" /\ trim "hi " = "hi".
Proof. split; reflexivity. Qed.

Example trim_ideographic_space :
  whitespace_only "　  ﻿" = true /\ trim "　a b　" = "a b".
Proof. split; reflexivity. Qed.

Example trim_keeps_letters : trim " école † " = "école †".
Proof. reflexivity. Qed.

Example includes_inside :
  includes (toLowerCase "AI Assistant") (toLowerCase "ASSIST") = true.
Proof. reflexivity. Qed.

Example includes_absent : includes "bot@whatsease.com" "bob" = false.
Proof. reflexivity. Qed.

Example endsWith_Z :
  endsWithChar "2023-11-14T22:13:20Z" "Z" = true
  /\ endsWithChar "2023-11-14T22:13:20" "Z" = false
  /\ endsWithChar "" "Z" = false.
Proof. repeat split. Qed.

Example temp_id_at_clock :
  ChatWindow.temp_id 1700000000000 = "temp-1700000000000".
Proof. reflexivity. Qed.

End JSFacts.

(** ** Lists of messages *)

Section MessageLists.

Import ChatWindow.

Lemma existsb_id_false (id : string) (l : list Message) :
  (forall m, In m l -> message_id m <> id) ->
  existsb (fun m => String.eqb (message_id m) id) l = false.
Proof.
  induction l as [|a l IH]; simpl; intros H; [reflexivity|].
  rewrite IH by (intros m Hm; apply H; right; exact Hm).
  destruct (String.eqb_spec (message_id a) id) as [E|E]; [|reflexivity].
  exfalso. apply (H a); [left; reflexivity | exact E].
Qed.

Lemma replace_optimistic_fresh opt newMessage (l : list Message) :
  (forall m, In m l -> message_id m <> message_id opt) ->
  replace_optimistic opt newMessage l = l.
Proof.
  unfold replace_optimistic.
  induction l as [|a l IH]; simpl; intros H; [reflexivity|].
  rewrite IH by (intros m Hm; apply H; right; exact Hm).
  destruct (String.eqb_spec (message_id a) (message_id opt)) as [E|E];
    [|reflexivity].
  exfalso. apply (H a); [left; reflexivity | exact E].
Qed.

Lemma replace_optimistic_app opt newMessage (l1 l2 : list Message) :
  replace_optimistic opt newMessage (l1 ++ l2)
  = replace_optimistic opt newMessage l1 ++ replace_optimistic opt newMessage l2.
Proof. unfold replace_optimistic. apply List.map_app. Qed.

Lemma replace_optimistic_self opt newMessage :
  replace_optimistic opt newMessage [opt] = [newMessage].
Proof.
  unfold replace_optimistic. simpl. rewrite String.eqb_refl. reflexivity.
Qed.

Lemma remove_optimistic_fresh opt (l : list Message) :
  (forall m, In m l -> message_id m <> message_id opt) ->
  remove_optimistic opt l = l.
Proof.
  unfold remove_optimistic.
  induction l as [|a l IH]; simpl; intros H; [reflexivity|].
  rewrite IH by (intros m Hm; apply H; right; exact Hm).
  destruct (String.eqb_spec (message_id a) (message_id opt)) as [E|E];
    [|reflexivity].
  exfalso. apply (H a); [left; reflexivity | exact E].
Qed.

Lemma remove_optimistic_app opt (l1 l2 : list Message) :
  remove_optimistic opt (l1 ++ l2)
  = remove_optimistic opt l1 ++ remove_optimistic opt l2.
Proof. unfold remove_optimistic. apply List.filter_app. Qed.

Lemma remove_optimistic_self opt : remove_optimistic opt [opt] = [].
Proof.
  unfold remove_optimistic. simpl. rewrite String.eqb_refl. reflexivity.
Qed.


Lemma count_id_fresh id (l : list Message) :
  (forall m, In m l -> message_id m <> id) -> count_id id l = 0.
Proof.
  unfold count_id.
  induction l as [|a l IH]; simpl; intros H; [reflexivity|].
  destruct (String.eqb_spec (message_id a) id) as [E|E].
  - exfalso. apply (H a); [left; reflexivity | exact E].
  - apply IH. intros m Hm. apply H. right. exact Hm.
Qed.

Lemma in_conversation_spec p m :
  in_conversation p m = true <->
  (sender m = other_user_email p /\ recipient m = currentUser_email p)
  \/ (sender m = currentUser_email p /\ recipient m = other_user_email p).
Proof.
  unfold in_conversation.
  rewrite orb_true_iff, !andb_true_iff, !String.eqb_eq. reflexivity.
Qed.

End MessageLists.

(** ** Sortedness under reversal *)

Section Reversal.

Context {A : Type}.

Lemma StronglySorted_snoc (R : A -> A -> Prop) (l : list A) (a : A) :
  StronglySorted R l -> Forall (fun x => R x a) l ->
  StronglySorted R (l ++ [a]).
Proof.
  induction 1 as [|b l Hs IH Hb]; intros Ha; simpl.
  - repeat constructor.
  - apply Forall_cons_iff in Ha as [Hba Ha].
    constructor; [apply IH; exact Ha|].
    apply Forall_app; split; [exact Hb|]. constructor; [exact Hba|constructor].
Qed.

Lemma StronglySorted_rev (R : A -> A -> Prop) (l : list A) :
  StronglySorted R l -> StronglySorted (flip R) (rev l).
Proof.
  induction 1 as [|a l Hs IH Ha]; simpl; [constructor|].
  apply StronglySorted_snoc; [exact IH|].
  apply List.Forall_forall. intros x Hx. apply List.in_rev in Hx.
  unfold flip. rewrite List.Forall_forall in Ha. apply Ha. exact Hx.
Qed.

End Reversal.

(** ** Rejected sends *)

Section RejectedSend.

Import ChatWindow.

Lemma send_blocked_whitespace content sending :
  JS.whitespace_only content = true -> send_blocked content sending = true.
Proof.
  intros H. unfold send_blocked.
  rewrite (trim_whitespace_only content H). simpl.
  apply orb_true_iff. left. apply orb_true_r.
Qed.

Lemma send_blocked_sending content : send_blocked content true = true.
Proof. unfold send_blocked. apply orb_true_r. Qed.

(** C7 — A send whose content is empty or made of white space only (any of
    the white space [trim] removes) is rejected on the spot:
    [handleSendMessage] returns at its guard, whatever render built it,
    so no placeholder is created, no durable send call is issued and the
    window state is unchanged; [MessageInput.handleSend] does not even
    call [onSend] for such a text and keeps its own state. *)
Theorem C7_blank_send_is_rejected
    (p : Props) (clk : Clock) (content : string)
    (replyToId : option string) (sending : bool) (st : State) :
  JS.whitespace_only content = true ->
  handleSendMessage_start p clk content replyToId sending st = None
  /\ handleSendMessage_sync p clk content replyToId sending st = (st, [])
  /\ (forall disabled replyTo inp,
        MessageInput.message inp = content ->
        MessageInput.handleSend disabled replyTo inp = (inp, None))
  /\ (forall seen inp,
        MessageInput.message inp = content ->
        MessageInput.send_from_input p clk seen inp st = (inp, st, [])).
Proof.
  intros Hws.
  assert (Hstart : handleSendMessage_start p clk content replyToId sending st
                   = None).
  { unfold handleSendMessage_start.
    rewrite (send_blocked_whitespace content sending Hws). reflexivity. }
  assert (Hin : forall disabled replyTo inp,
             MessageInput.message inp = content ->
             MessageInput.handleSend disabled replyTo inp = (inp, None)).
  { intros disabled rt inp E. unfold MessageInput.handleSend.
    rewrite E, (trim_whitespace_only content Hws). reflexivity. }
  repeat split.
  - exact Hstart.
  - unfold handleSendMessage_sync. rewrite Hstart. reflexivity.
  - exact Hin.
  - intros seen inp E. unfold MessageInput.send_from_input.
    rewrite (Hin _ _ inp E). reflexivity.
Qed.

Lemma C7_blank_send_witness :
  JS.whitespace_only "  　 " = true
  /\ handleSendMessage_sync Scenario.alice_bob Scenario.clock "  　 " None
       false Scenario.idle = (Scenario.idle, []).
Proof.
  split; [reflexivity|].
  apply (C7_blank_send_is_rejected Scenario.alice_bob Scenario.clock
           "  　 " None false Scenario.idle).
  reflexivity.
Defined.

End RejectedSend.

(** ** Conversation loading *)

Section Loading.

Import ChatWindow.

(** C8 — The client displays the exact reversal of the sequence the history
    interface returned; hence, for any "at least as new as" relation, a
    response that is newest-first is displayed oldest-first. *)
Theorem C8_display_is_reversed_history (l : list Message) (st : State) :
  messages (loadMessages_resolve (Some (mkResponse (Some l))) st) = rev l
  /\ (forall newer : Message -> Message -> Prop,
        StronglySorted newer l ->
        StronglySorted (flip newer)
          (messages (loadMessages_resolve (Some (mkResponse (Some l))) st))).
Proof.
  split; [reflexivity|].
  intros newer Hs. simpl. apply StronglySorted_rev. exact Hs.
Qed.

Lemma C8_display_witness :
  messages (loadMessages_resolve
              (Some (mkResponse (Some [Scenario.m7; Scenario.m3])))
              Scenario.idle)
  = [Scenario.m3; Scenario.m7].
Proof.
  exact (proj1 (C8_display_is_reversed_history [Scenario.m7; Scenario.m3]
                  Scenario.idle)).
Defined.

End Loading.

(** ** The push handler: events of other conversations *)

Section PushFrame.

Import ChatWindow.

Lemma is_message_type_spec t :
  is_message_type t = true <-> t = "new_message" \/ t = "message".
Proof.
  unfold is_message_type. rewrite orb_true_iff, !String.eqb_eq. reflexivity.
Qed.

(** C9 — A push event of an unrecognized type, or a new-message event whose
    sender/recipient pair is not the pair of the open conversation, leaves
    the whole window state (the displayed messages in particular) as it was
    and issues no call, so no mark-read event. *)
Theorem C9_foreign_push_is_ignored (p : Props) (w : WsMessage) (st : State) :
  (ws_type w <> "new_message" /\ ws_type w <> "message"
   /\ ws_type w <> "typing")
  \/ ((ws_type w = "new_message" \/ ws_type w = "message")
      /\ ~ ((sender (messageData w) = other_user_email p
             /\ recipient (messageData w) = currentUser_email p)
            \/ (sender (messageData w) = currentUser_email p
                /\ recipient (messageData w) = other_user_email p))) ->
  onWsMessage p w st = Done st []
  /\ messages (state_after (onWsMessage p w st) st) = messages st
  /\ (forall id s, ~ In (WsMarkAsRead id s) (calls_of (onWsMessage p w st))).
Proof.
  intros H.
  assert (E : onWsMessage p w st = Done st []).
  { unfold onWsMessage. destruct H as [(H1 & H2 & H3) | (Ht & Hp)].
    - destruct (is_message_type (ws_type w)) eqn:Et.
      + apply is_message_type_spec in Et. tauto.
      + destruct (String.eqb_spec (ws_type w) "typing"); [contradiction|].
        reflexivity.
    - apply is_message_type_spec in Ht. rewrite Ht.
      destruct (in_conversation p (messageData w)) eqn:Ec; [|reflexivity].
      apply in_conversation_spec in Ec. contradiction. }
  rewrite E. simpl. repeat split. intros id s [].
Qed.

Lemma C9_foreign_push_witness :
  onWsMessage Scenario.alice_bob (Scenario.push Scenario.m9)
    (mkState [Scenario.m3] false None None false false)
  = Done (mkState [Scenario.m3] false None None false false) [].
Proof.
  apply (C9_foreign_push_is_ignored Scenario.alice_bob
           (Scenario.push Scenario.m9)).
  right. split; [left; reflexivity|].
  intros [[H _] | [H _]]; discriminate H.
Defined.

End PushFrame.

(** ** The optimistic send *)

Section OptimisticSend.

Import ChatWindow.

Lemma start_accepts p clk content replyToId st :
  JS.truthy (JS.trim content) = true ->
  content <> "" ->
  handleSendMessage_start p clk content replyToId false st
  = Some (mkState (messages st ++ [optimisticMessage p clk content replyToId])
                  (loading st) None None (isTyping st) true,
          optimisticMessage p clk content replyToId,
          [send_call p content replyToId]).
Proof.
  intros Ht Hne. unfold handleSendMessage_start, send_blocked.
  rewrite Ht.
  assert (Hc : JS.truthy content = true).
  { destruct content; [contradiction | reflexivity]. }
  rewrite Hc. reflexivity.
Qed.

Lemma trim_truthy_nonempty content :
  JS.truthy (JS.trim content) = true -> content <> "".
Proof. intros H ->. discriminate H. Qed.

Lemma start_inv p clk content replyToId sending st st1 opt calls :
  handleSendMessage_start p clk content replyToId sending st
  = Some (st1, opt, calls) ->
  opt = optimisticMessage p clk content replyToId
  /\ messages st1 = messages st ++ [opt]
  /\ isSending st1 = true
  /\ calls = [send_call p content replyToId].
Proof.
  unfold handleSendMessage_start.
  destruct (send_blocked content sending); [discriminate|].
  intros H. injection H as <- <- <-. repeat split.
Qed.

Lemma temp_id_prefix now : JS.startsWith (temp_id now) "temp-" = true.
Proof. unfold temp_id. simpl. apply startsWith_empty. Qed.

(** Where the placeholder sits when the durable call settles: the messages
    shown before the send, the placeholder, and whatever the push channel
    appended in between. *)
Lemma resolve_in_place p connected content replyToId opt newMessage st
    (before between : list Message) :
  messages st = before ++ [opt] ++ between ->
  (forall m, In m (before ++ between) -> message_id m <> message_id opt) ->
  messages (fst (handleSendMessage_resolve p connected content replyToId
                   opt newMessage st))
  = before ++ [newMessage] ++ between.
Proof.
  intros E Hfresh. simpl. rewrite E.
  rewrite !replace_optimistic_app, replace_optimistic_self.
  rewrite !replace_optimistic_fresh; [reflexivity| |];
    intros m Hm; apply Hfresh, List.in_or_app; [right|left]; exact Hm.
Qed.

Lemma reject_removes opt st (before between : list Message) :
  messages st = before ++ [opt] ++ between ->
  (forall m, In m (before ++ between) -> message_id m <> message_id opt) ->
  messages (fst (handleSendMessage_reject opt st)) = before ++ between.
Proof.
  intros E Hfresh. simpl. rewrite E.
  rewrite !remove_optimistic_app, remove_optimistic_self.
  rewrite !remove_optimistic_fresh; [reflexivity| |];
    intros m Hm; apply Hfresh, List.in_or_app; [right|left]; exact Hm.
Qed.

(** What [MessageInput] hands to [onSend]: a text that is not empty and
    that [trim] leaves as it is, from an input that is not disabled. *)
Lemma handleSend_calls disabled replyTo inp inp' call :
  MessageInput.handleSend disabled replyTo inp = (inp', Some call) ->
  disabled = false
  /\ MessageInput.sent_content call = JS.trim (MessageInput.message inp)
  /\ MessageInput.sent_content call <> ""
  /\ JS.trim (MessageInput.sent_content call) = MessageInput.sent_content call
  /\ MessageInput.sent_replyToId call = option_map message_id replyTo
  /\ inp' = MessageInput.mkState "" false.
Proof.
  unfold MessageInput.handleSend.
  destruct (JS.truthy (JS.trim (MessageInput.message inp))) eqn:Et;
    simpl; [|discriminate].
  destruct disabled; simpl; [discriminate|].
  intros H. injection H as <- <-. simpl. repeat split.
  - intros E. rewrite E in Et. discriminate Et.
  - apply trim_idempotent.
Qed.

(** C4 — Every send of non-empty content, that is every text the message
    input hands to the window's [handleSendMessage] (the input and the
    handler belong to one render of the window, which saw the state
    [seen]), makes the window append at once a placeholder whose
    identifier starts with "temp-" and whose status is "Sending", carrying
    that text, and issue one durable send call.  When that call returns,
    the placeholder is replaced by the returned message at its position
    and no other entry changes, whatever the push channel appended in
    between (no other entry carrying the placeholder's temporary
    identifier). *)
Theorem C4_placeholder_replaced_in_place
    (p : Props) (clk : Clock) (connected : bool)
    (seen win : State) (inp inp' : MessageInput.State)
    (call : MessageInput.OnSend) (newMessage : Message) :
  MessageInput.handleSend (isSending seen) (replyTo seen) inp
  = (inp', Some call) ->
  exists win1 opt,
    handleSendMessage_start p clk (MessageInput.sent_content call)
      (MessageInput.sent_replyToId call) (isSending seen) win
    = Some (win1, opt,
            [send_call p (MessageInput.sent_content call)
                       (MessageInput.sent_replyToId call)])
    /\ MessageInput.send_from_input p clk seen inp win
       = (inp', win1,
          [send_call p (MessageInput.sent_content call)
                     (MessageInput.sent_replyToId call)])
    /\ MessageInput.sent_content call <> ""
    /\ messages win1 = messages win ++ [opt]
    /\ JS.startsWith (message_id opt) "temp-" = true
    /\ status opt = "Sending"
    /\ content opt = MessageInput.sent_content call
    /\ forall (between : list Message) (st2 : State),
         messages st2 = messages win ++ [opt] ++ between ->
         (forall m, In m (messages win ++ between) ->
                    message_id m <> message_id opt) ->
         messages (fst (handleSendMessage_resolve p connected
                          (MessageInput.sent_content call)
                          (MessageInput.sent_replyToId call)
                          opt newMessage st2))
         = messages win ++ [newMessage] ++ between.
Proof.
  intros Hsend.
  destruct (handleSend_calls _ _ _ _ _ Hsend)
    as (Hd & Hc & Hne & Htrim & Hr & Hinp).
  assert (Hstart :
    handleSendMessage_start p clk (MessageInput.sent_content call)
      (MessageInput.sent_replyToId call) (isSending seen) win
    = Some (mkState
              (messages win
               ++ [optimisticMessage p clk (MessageInput.sent_content call)
                     (MessageInput.sent_replyToId call)])
              (loading win) None None (isTyping win) true,
            optimisticMessage p clk (MessageInput.sent_content call)
              (MessageInput.sent_replyToId call),
            [send_call p (MessageInput.sent_content call)
                       (MessageInput.sent_replyToId call)])).
  { rewrite Hd. apply start_accepts; [|exact Hne].
    rewrite Htrim. destruct (MessageInput.sent_content call);
      [contradiction|reflexivity]. }
  eexists. eexists. split; [exact Hstart|].
  split.
  { unfold MessageInput.send_from_input, handleSendMessage_sync.
    rewrite Hsend, Hstart. reflexivity. }
  split; [exact Hne|]. split; [reflexivity|].
  split; [apply temp_id_prefix|]. split; [reflexivity|].
  split; [exact Htrim|].
  intros between st2 E Hfresh.
  apply resolve_in_place; assumption.
Qed.

Lemma C4_placeholder_witness :
  exists win1 opt,
    MessageInput.send_from_input Scenario.alice_bob Scenario.clock
      (mkState [Scenario.m3] false None None false false)
      (MessageInput.mkState " hello " true)
      (mkState [Scenario.m3] false None None false false)
    = (MessageInput.mkState "" false, win1,
       [ApiSendMessage "bob@example.com" "hello" None])
    /\ messages win1 = [Scenario.m3; opt]
    /\ messages (fst (handleSendMessage_resolve Scenario.alice_bob true
                        "hello" None opt Scenario.m42
                        (set_messages (fun l => l ++ [Scenario.m7]) win1)))
       = [Scenario.m3; Scenario.m42; Scenario.m7].
Proof.
  destruct (C4_placeholder_replaced_in_place Scenario.alice_bob
              Scenario.clock true
              (mkState [Scenario.m3] false None None false false)
              (mkState [Scenario.m3] false None None false false)
              (MessageInput.mkState " hello " true)
              (MessageInput.mkState "" false)
              (MessageInput.mkOnSend "hello" None)
              Scenario.m42 eq_refl)
    as (win1 & opt & Hstart & Hsend & _ & Hmsgs & _ & _ & _ & Hres).
  exists win1, opt. split; [exact Hsend|]. split; [exact Hmsgs|].
  injection Hstart as <- <-.
  apply (Hres [Scenario.m7]); [reflexivity|].
  intros m [<- | [<- | []]]; vm_compute; discriminate.
Defined.

(** C5 — When the durable call of an optimistic send fails, the [catch]
    branch removes the placeholder, sets the error banner and makes no call
    at all (no retry): the only durable call of the whole send is the one
    issued at the start.  The displayed conversation is then what it was
    before the send, extended by what the push channel appended in between
    (nothing, when no event arrived). *)
Theorem C5_failed_send_restores_conversation
    (p : Props) (clk : Clock) (content : string) (replyToId : option string)
    (sending : bool) (st st1 : State) (opt : Message) (calls : list Call) :
  handleSendMessage_start p clk content replyToId sending st
  = Some (st1, opt, calls) ->
  (forall m, In m (messages st) -> message_id m <> message_id opt) ->
  calls = [send_call p content replyToId]
  /\ snd (handleSendMessage_reject opt st1) = []
  /\ error (fst (handleSendMessage_reject opt st1))
     = Some "Failed to send message. Please try again."
  /\ isSending (fst (handleSendMessage_reject opt st1)) = false
  /\ messages (fst (handleSendMessage_reject opt st1)) = messages st
  /\ forall (between : list Message) (st2 : State),
       messages st2 = messages st1 ++ between ->
       (forall m, In m between -> message_id m <> message_id opt) ->
       messages (fst (handleSendMessage_reject opt st2))
       = messages st ++ between.
Proof.
  intros Hstart Hfresh.
  destruct (start_inv _ _ _ _ _ _ _ _ _ Hstart) as (Hopt & Hm1 & _ & Hcalls).
  assert (Hgen : forall (between : list Message) (st2 : State),
             messages st2 = messages st1 ++ between ->
             (forall m, In m between -> message_id m <> message_id opt) ->
             messages (fst (handleSendMessage_reject opt st2))
             = messages st ++ between).
  { intros between st2 E Hb. apply reject_removes.
    - rewrite E, Hm1, <- List.app_assoc. reflexivity.
    - intros m Hm. apply List.in_app_or in Hm as [Hm|Hm]; auto. }
  repeat split; try assumption.
  rewrite <- (List.app_nil_r (messages st)).
  apply Hgen; [rewrite List.app_nil_r; reflexivity | intros m []].
Qed.

Lemma C5_failed_send_witness :
  messages
    (fst (handleSendMessage_reject Scenario.placeholder
            (fst (handleSendMessage_sync Scenario.alice_bob Scenario.clock
                    "hello" None false
                    (mkState [Scenario.m3] false None None false false)))))
  = [Scenario.m3].
Proof.
  refine (proj1 (proj2 (proj2 (proj2 (proj2
    (C5_failed_send_restores_conversation Scenario.alice_bob Scenario.clock
       "hello" None false (mkState [Scenario.m3] false None None false false)
       _ Scenario.placeholder _ eq_refl _)))))).
  intros m [<- | []]. vm_compute. discriminate.
Defined.

End OptimisticSend.

(** ** Reconciling the push echo with the pull response *)

Section Reconciliation.

Import ChatWindow.

Lemma append_unless_known_present msg (l : list Message) :
  (exists m, In m l /\ message_id m = message_id msg) ->
  append_unless_known msg l = l.
Proof.
  intros (m & Hin & E). unfold append_unless_known.
  assert (H : existsb (fun m => String.eqb (message_id m) (message_id msg)) l
              = true).
  { apply List.existsb_exists. exists m. split; [exact Hin|].
    apply String.eqb_eq. exact E. }
  rewrite H. reflexivity.
Qed.





(** ** Acknowledgements sent by the recipient's client *)

(** C2, as the claim states it, fails: on receiving Bob's message in the
    open conversation, Alice's client at once issues a mark-read event for
    it, and no delivery acknowledgement. *)
Lemma C2_read_on_receipt_counterexample :
  calls_of (onWsMessage Scenario.alice_bob (Scenario.push Scenario.m7)
              Scenario.idle)
  = [WsMarkAsRead "m7" "bob@example.com"]
  /\ List.map (WebSocketContext.frame_of_call true "t")
       (calls_of (onWsMessage Scenario.alice_bob (Scenario.push Scenario.m7)
                    Scenario.idle))
     = [Some (WebSocketContext.mkPayload "mark_read"
                (WebSocketContext.MarkData "m7" "bob@example.com") "t")].
Proof. split; reflexivity. Qed.

(** C2 (amended) — The recipient's client asks for Read as soon as a
    new-message event from the partner of the open conversation, addressed
    to the current user, reaches the open chat window: the handler issues
    exactly one mark-read event, for that message and scoped to that
    partner, which goes onto an open socket as a "mark_read" frame.  The
    handler never issues a delivery acknowledgement, and every mark-read it
    issues is for a message whose sender is the partner. *)
Theorem C2_read_is_requested_on_receipt
    (p : Props) (w : WsMessage) (st : State) :
  (ws_type w = "new_message" \/ ws_type w = "message") ->
  sender (messageData w) = other_user_email p ->
  recipient (messageData w) = currentUser_email p ->
  calls_of (onWsMessage p w st)
  = [WsMarkAsRead (message_id (messageData w)) (other_user_email p)]
  /\ (forall iso,
        List.map (WebSocketContext.frame_of_call true iso)
                 (calls_of (onWsMessage p w st))
        = [Some (WebSocketContext.mkPayload "mark_read"
                   (WebSocketContext.MarkData (message_id (messageData w))
                                              (other_user_email p)) iso)])
  /\ (forall w' st' id s,
        ~ In (WsMarkAsDelivered id s) (calls_of (onWsMessage p w' st')))
  /\ (forall w' st' id s,
        In (WsMarkAsRead id s) (calls_of (onWsMessage p w' st')) ->
        id = message_id (messageData w') /\ s = other_user_email p
        /\ sender (messageData w') = other_user_email p).
Proof.
  intros Ht Hs Hr.
  assert (E : calls_of (onWsMessage p w st)
              = [WsMarkAsRead (message_id (messageData w))
                              (other_user_email p)]).
  { unfold onWsMessage. apply is_message_type_spec in Ht. rewrite Ht.
    assert (Hc : in_conversation p (messageData w) = true).
    { apply in_conversation_spec. left. split; assumption. }
    rewrite Hc. simpl. rewrite Hs, String.eqb_refl. reflexivity. }
  split; [exact E|]. split; [intros iso; rewrite E; reflexivity|].
  split.
  - intros w' st' id s. unfold onWsMessage.
    destruct (is_message_type (ws_type w')).
    + destruct (in_conversation p (messageData w')); simpl; [|tauto].
      destruct (String.eqb _ _); simpl; [|tauto].
      intros [H|[]]. discriminate H.
    + destruct (String.eqb (ws_type w') "typing"); simpl; [|tauto].
      destruct (ws_data w'); simpl; [|tauto].
      destruct (String.eqb _ _); simpl; tauto.
  - intros w' st' id s. unfold onWsMessage.
    destruct (is_message_type (ws_type w')).
    + destruct (in_conversation p (messageData w')); simpl; [|tauto].
      destruct (String.eqb_spec (sender (messageData w'))
                                (other_user_email p)) as [Es|Es];
        simpl; [|tauto].
      intros [H|[]]. injection H as <- <-. repeat split. exact Es.
    + destruct (String.eqb (ws_type w') "typing"); simpl; [|tauto].
      destruct (ws_data w'); simpl; [|tauto].
      destruct (String.eqb _ _); simpl; tauto.
Qed.

Lemma C2_read_on_receipt_witness :
  calls_of (onWsMessage Scenario.alice_bob (Scenario.push Scenario.m7)
              (mkState [Scenario.m3] false None None false false))
  = [WsMarkAsRead "m7" "bob@example.com"].
Proof.
  apply (C2_read_is_requested_on_receipt Scenario.alice_bob
           (Scenario.push Scenario.m7)
           (mkState [Scenario.m3] false None None false false)).
  - left. reflexivity.
  - reflexivity.
  - reflexivity.
Defined.

End Reconciliation.

(** ** The reconnect machine *)

Section Reconnect.

Import WebSocketContext.

Lemma lookup_singleton_or_nil {A} (l : list A) i x :
  (length l <= 1)%nat -> l !! i = Some x -> l = [x] /\ i = 0%nat.
Proof.
  destruct l as [|a [|b l]]; simpl; intros Hlen Hl.
  - discriminate Hl.
  - destruct i as [|i]; simpl in Hl; [|discriminate Hl].
    injection Hl as ->. split; reflexivity.
  - lia.
Qed.

Lemma step_single_chain e c c' :
  single_chain c -> step e c = Some c' -> single_chain c'.
Proof.
  intros Hinv Hstep. destruct e as [i|i|i ready]; simpl in Hstep.
  - destruct (sockets c !! i) as [[|]|] eqn:El; try discriminate Hstep.
    injection Hstep as <-.
    destruct Hinv as [(Ht & Hl & _)|(_ & Hs & _)].
    + left. simpl. rewrite length_insert. repeat split; [exact Ht|exact Hl|].
      unfold maxReconnectAttempts. lia.
    + rewrite Hs in El. discriminate El.
  - destruct (sockets c !! i) as [r|] eqn:El; try discriminate Hstep.
    injection Hstep as <-.
    destruct Hinv as [(Ht & Hl & Ha)|(_ & Hs & _)].
    + destruct (lookup_singleton_or_nil _ _ _ Hl El) as [Es ->].
      unfold onclose. rewrite Es, Ht. simpl.
      destruct (Nat.ltb_spec (reconnectAttempts c) maxReconnectAttempts).
      * right. simpl. repeat split. assumption.
      * left. simpl. repeat split; [lia|assumption].
    + rewrite Hs in El. discriminate El.
  - destruct (timers c !! i) as [d|] eqn:El; try discriminate Hstep.
    injection Hstep as <-.
    destruct Hinv as [(Ht & _ & _)|(Ht & Hs & Ha)].
    + rewrite Ht in El. discriminate El.
    + assert (Hi : i = 0%nat).
      { rewrite Ht in El. destruct i; [reflexivity|discriminate El]. }
      subst i. unfold ontimeout, connect. rewrite Ht, Hs.
      left. destruct ready; simpl; repeat split; lia.
Qed.

Lemma run_single_chain es : forall c c',
  single_chain c -> run es c = Some c' -> single_chain c'.
Proof.
  induction es as [|e es IH]; simpl; intros c c' Hinv Hrun.
  - injection Hrun as <-. exact Hinv.
  - destruct (step e c) as [c1|] eqn:E; [|discriminate Hrun].
    apply (IH c1 c'); [|exact Hrun].
    apply (step_single_chain e c c1); assumption.
Qed.

Lemma reachable_single_chain c : reachable c -> single_chain c.
Proof.
  intros [es Hrun]. apply (run_single_chain es initial c); [|exact Hrun].
  left. simpl. unfold maxReconnectAttempts. repeat split; lia.
Qed.

Lemma run_stuck es : forall c c',
  (forall e, step e c = None) -> run es c = Some c' -> es = [].
Proof.
  destruct es as [|e es]; simpl; intros c c' Hstuck Hrun; [reflexivity|].
  rewrite Hstuck in Hrun. discriminate Hrun.
Qed.

(** C3 — In every state the reconnect machine reaches from the provider's
    first [connect()]: the attempt counter is at most 5; every pending
    reconnect has the one fixed delay; an open resets the counter to 0; a
    close that finds the counter below 5 schedules one reconnect with that
    delay, whose firing adds one to the counter and connects again; a close
    that finds the counter at 5 schedules nothing and leaves the machine
    without socket and without timer, so that nothing happens any more
    (until the page is reloaded). *)
Theorem C3_reconnect_is_bounded (c : Conn) :
  reachable c ->
  (reconnectAttempts c <= maxReconnectAttempts)%nat
  /\ Forall (fun d => d = reconnectDelay) (timers c)
  /\ (forall i c', step (Opened i) c = Some c' ->
        reconnectAttempts c' = 0%nat /\ isConnected c' = true)
  /\ (forall i c', step (Closed i) c = Some c' ->
        (reconnectAttempts c < maxReconnectAttempts)%nat ->
        timers c' = [reconnectDelay]
        /\ reconnectAttempts c' = reconnectAttempts c
        /\ forall ready c'', step (TimerFired 0 ready) c' = Some c'' ->
             reconnectAttempts c'' = (reconnectAttempts c + 1)%nat
             /\ sockets c'' = (if ready then [CONNECTING] else [])
             /\ timers c'' = [])
  /\ (forall i c', step (Closed i) c = Some c' ->
        reconnectAttempts c = maxReconnectAttempts ->
        timers c' = [] /\ sockets c' = []
        /\ (forall e, step e c' = None)
        /\ (forall es c'', run es c' = Some c'' -> es = [])).
Proof.
  intros Hreach. pose proof (reachable_single_chain c Hreach) as Hinv.
  split; [destruct Hinv as [(_ & _ & H)|(_ & _ & H)]; lia|].
  split.
  { destruct Hinv as [(Ht & _)|(Ht & _)]; rewrite Ht; repeat constructor. }
  split.
  { intros i c' Hstep. simpl in Hstep.
    destruct (sockets c !! i) as [[|]|]; try discriminate Hstep.
    injection Hstep as <-. split; reflexivity. }
  assert (Hclose : forall i c', step (Closed i) c = Some c' ->
            timers c = [] /\ sockets c' = []
            /\ c' = onclose i c).
  { intros i c' Hstep. simpl in Hstep.
    destruct (sockets c !! i) as [r|] eqn:El; try discriminate Hstep.
    injection Hstep as <-.
    destruct Hinv as [(Ht & Hl & _)|(_ & Hs & _)].
    - destruct (lookup_singleton_or_nil _ _ _ Hl El) as [Es ->].
      repeat split; [exact Ht|]. simpl. rewrite Es. reflexivity.
    - rewrite Hs in El. discriminate El. }
  split.
  - intros i c' Hstep Hlt.
    destruct (Hclose i c' Hstep) as (Ht & Hs & ->).
    assert (Et : timers (onclose i c) = [reconnectDelay]).
    { simpl. rewrite Ht.
      destruct (Nat.ltb_spec (reconnectAttempts c) maxReconnectAttempts);
        [reflexivity|lia]. }
    split; [exact Et|]. split; [reflexivity|].
    intros ready c'' Hfire. simpl in Hfire.
    rewrite Ht in Hfire.
    destruct (Nat.ltb_spec (reconnectAttempts c) maxReconnectAttempts);
      [|lia].
    simpl in Hfire. injection Hfire as <-.
    unfold ontimeout, connect. simpl in Hs.
    destruct ready; simpl; rewrite ?Hs; repeat split; rewrite Ht;
      destruct (Nat.ltb_spec (reconnectAttempts c) maxReconnectAttempts);
      try lia; reflexivity.
  - intros i c' Hstep Heq.
    destruct (Hclose i c' Hstep) as (Ht & Hs & ->).
    assert (Et : timers (onclose i c) = []).
    { simpl. rewrite Ht, Heq. reflexivity. }
    assert (Hstuck : forall e, step e (onclose i c) = None).
    { intros [j|j|j ready]; unfold step; rewrite ?Hs, ?Et; reflexivity. }
    repeat split; [exact Et|exact Hs|exact Hstuck|].
    intros es c'' Hrun. apply (run_stuck es _ c'' Hstuck Hrun).
Qed.

Lemma C3_reconnect_witness :
  exists c5,
    run five_failures initial = Some c5
    /\ reconnectAttempts c5 = 5%nat
    /\ forall c', step (Closed 0) c5 = Some c' ->
         timers c' = [] /\ sockets c' = [].
Proof.
  eexists. split; [reflexivity|]. split; [reflexivity|].
  intros c' Hstep.
  pose proof (C3_reconnect_is_bounded _
                (ex_intro _ five_failures eq_refl)) as H.
  destruct H as (_ & _ & _ & _ & H).
  destruct (H 0%nat c' Hstep eq_refl) as (Ht & Hs & _).
  split; [exact Ht | exact Hs].
Defined.

End Reconnect.

(** ** The automated correspondent in the chat list *)

Section BotEntry.

Import ChatList.

Lemma count_bot_regular (chats : list Chat) :
  count_bot (List.filter (fun chat => negb (is_bot chat)) chats) = 0%nat.
Proof.
  unfold count_bot. induction chats as [|a l IH]; simpl; [reflexivity|].
  destruct (is_bot a) eqn:E; simpl; [exact IH|].
  rewrite E. exact IH.
Qed.

Lemma regular_not_bot (chats : list Chat) chat :
  In chat (List.filter (fun chat => negb (is_bot chat)) chats) ->
  is_bot chat = false.
Proof.
  intros H. apply List.filter_In in H as [_ H].
  apply negb_true_iff. exact H.
Qed.

Lemma count_bot_filter_le (f : Chat -> bool) (l : list Chat) :
  (count_bot (List.filter f l) <= count_bot l)%nat.
Proof.
  unfold count_bot. induction l as [|a l IH]; simpl; [lia|].
  destruct (f a); simpl; destruct (is_bot a); simpl; lia.
Qed.

Lemma processedChats_shape iso (chats : list Chat) :
  exists bot,
    processedChats iso chats
    = bot :: List.filter (fun chat => negb (is_bot chat)) chats
    /\ other_user_email bot = BOT_EMAIL
    /\ is_online bot = true.
Proof.
  unfold processedChats.
  destruct (List.find is_bot chats) as [b|] eqn:E.
  - exists (set_online b). repeat split. simpl.
    apply List.find_some in E as [_ E]. apply String.eqb_eq. exact E.
  - exists (set_online (defaultBotChat iso)). repeat split.
Qed.

Lemma matches_empty_query chat : matches "" chat = true.
Proof. unfold matches. simpl. rewrite includes_empty. reflexivity. Qed.

Lemma filter_all_true {A} (f : A -> bool) (l : list A) :
  (forall x, f x = true) -> List.filter f l = l.
Proof.
  intros H. induction l as [|a l IH]; simpl; [reflexivity|].
  rewrite H, IH. reflexivity.
Qed.

(** C6, as the claim states it, fails under a search: the rendered list is
    the processed list filtered by the search query, and a query that
    matches Bob only leaves no entry of the automated correspondent. *)
Lemma C6_search_hides_bot_counterexample :
  filteredChats "2023-11-14T22:13:20.000Z" "bob" [Scenario.bob_chat]
  = [Scenario.bob_chat]
  /\ count_bot (filteredChats "2023-11-14T22:13:20.000Z" "bob"
                  [Scenario.bob_chat]) = 0%nat
  /\ count_bot (filteredChats "2023-11-14T22:13:20.000Z" "bob"
                  [Scenario.bob_chat]) <> 1%nat.
Proof. vm_compute. repeat split. discriminate. Qed.

(** C6 (amended) — Whatever chats and presence data the server supplied and
    whatever presence events were applied to them, the processed chat list
    holds the automated correspondent exactly once, at the top, online; so
    does the rendered list when the search query is empty.  Under a search
    query the rendered list holds it at most once, and then at the top and
    online.  Selecting the automated correspondent's chat stores it as
    online, whatever the online set and the entry say. *)
Theorem C6_bot_pinned_online (iso : string) (chats : list Chat) :
  (exists bot rest,
     processedChats iso chats = bot :: rest
     /\ other_user_email bot = BOT_EMAIL /\ is_online bot = true)
  /\ count_bot (processedChats iso chats) = 1%nat
  /\ filteredChats iso "" chats = processedChats iso chats
  /\ (forall q,
        (count_bot (filteredChats iso q chats) <= 1)%nat
        /\ forall chat,
             In chat (filteredChats iso q chats) ->
             other_user_email chat = BOT_EMAIL ->
             hd_error (filteredChats iso q chats) = Some chat
             /\ is_online chat = true)
  /\ (forall (st : ChatDashboard.State) user_email online,
        ChatDashboard.chats st = chats ->
        exists bot rest,
          ChatDashboard.rendered iso ""
            (ChatDashboard.onUserStatusChange user_email online st)
          = bot :: rest
          /\ other_user_email bot = BOT_EMAIL /\ is_online bot = true)
  /\ (forall (st : ChatDashboard.State) chat,
        other_user_email chat = BOT_EMAIL ->
        exists sel,
          ChatDashboard.selectedChat
            (fst (ChatDashboard.handleChatSelect chat st)) = Some sel
          /\ other_user_email sel = BOT_EMAIL /\ is_online sel = true).
Proof.
  destruct (processedChats_shape iso chats) as (bot & Hp & He & Ho).
  assert (Hb : is_bot bot = true) by (apply String.eqb_eq; exact He).
  assert (Hempty : forall l, filteredChats iso "" l = processedChats iso l).
  { intros l. unfold filteredChats. apply filter_all_true.
    exact matches_empty_query. }
  split; [exists bot; eexists; repeat split; eassumption|].
  split.
  { rewrite Hp. unfold count_bot. simpl. rewrite Hb. simpl.
    f_equal. apply count_bot_regular. }
  split; [apply Hempty|].
  split.
  { intros q. unfold filteredChats. rewrite Hp. simpl.
    pose proof (count_bot_filter_le (matches q)
                  (List.filter (fun chat => negb (is_bot chat)) chats)) as Hle.
    rewrite count_bot_regular in Hle.
    assert (Hreg : forall chat,
              In chat (List.filter (matches q)
                         (List.filter (fun chat => negb (is_bot chat)) chats)) ->
              other_user_email chat = BOT_EMAIL -> False).
    { intros chat Hin Hce. apply List.filter_In in Hin as [Hin _].
      apply regular_not_bot in Hin. unfold is_bot in Hin.
      rewrite Hce, String.eqb_refl in Hin. discriminate Hin. }
    destruct (matches q bot); simpl.
    - split.
      + unfold count_bot in *. simpl. rewrite Hb. simpl. lia.
      + intros chat [<-|Hin] Hce; [split; [reflexivity|exact Ho]|].
        exfalso. exact (Hreg chat Hin Hce).
    - split; [lia|]. intros chat Hin Hce. exfalso. exact (Hreg chat Hin Hce). }
  split.
  { intros st user_email online _. unfold ChatDashboard.rendered.
    rewrite Hempty.
    destruct (processedChats_shape iso
                (ChatDashboard.chats
                   (ChatDashboard.onUserStatusChange user_email online st)))
      as (bot' & Hp' & He' & Ho').
    exists bot'. eexists. repeat split; eassumption. }
  intros st chat Hce. eexists. split; [reflexivity|].
  split; [exact Hce|]. simpl.
  rewrite Hce. reflexivity.
Qed.

Lemma C6_bot_pinned_witness :
  processedChats "2023-11-14T22:13:20.000Z"
    [Scenario.bob_chat; Scenario.bot_offline; Scenario.bot_offline]
  = [set_online Scenario.bot_offline; Scenario.bob_chat]
  /\ count_bot (processedChats "2023-11-14T22:13:20.000Z"
                  [Scenario.bob_chat; Scenario.bot_offline;
                   Scenario.bot_offline]) = 1%nat.
Proof.
  split; [reflexivity|].
  exact (proj1 (proj2 (C6_bot_pinned_online "2023-11-14T22:13:20.000Z"
                         [Scenario.bob_chat; Scenario.bot_offline;
                          Scenario.bot_offline]))).
Defined.

End BotEntry.

(** ** Timestamp utilities *)

Section Timestamps.

Import DateUtils.

Variable h : Host.




End Timestamps.



(* ===================================================================== *)
(** * Further properties of the components *)
(* ===================================================================== *)

(** ** The push handler as a transformer of the message list *)

Section PushHandler.

Import ChatWindow.

Lemma append_unless_known_twice msg (l : list Message) :
  append_unless_known msg (append_unless_known msg l)
  = append_unless_known msg l.
Proof.
  apply append_unless_known_present. unfold append_unless_known.
  destruct (existsb _ l) eqn:E.
  - apply List.existsb_exists in E as (m & Hin & Hm).
    exists m. split; [exact Hin|]. apply String.eqb_eq. exact Hm.
  - exists msg. split; [|reflexivity].
    apply List.in_or_app. right. left. reflexivity.
Qed.

Lemma append_unless_known_ids msg (l : list Message) :
  NoDup (ids l) -> NoDup (ids (append_unless_known msg l)).
Proof.
  intros Hnd. unfold append_unless_known.
  destruct (existsb _ l) eqn:E; [exact Hnd|].
  unfold ids. rewrite List.map_app. simpl.
  apply NoDup_app. split; [exact Hnd|]. split.
  - intros x Hx [Hy|[]]%list_elem_of_In. subst x.
    apply list_elem_of_In, List.in_map_iff in Hx as (m & Hm & Hin).
    assert (Hex : existsb (fun m => String.eqb (message_id m)
                                      (message_id msg)) l = true).
    { apply List.existsb_exists. exists m. split; [exact Hin|].
      apply String.eqb_eq. exact Hm. }
    rewrite Hex in E. discriminate E.
  - apply NoDup_singleton.
Qed.

Lemma onWsMessage_messages p w st :
  messages (state_after (onWsMessage p w st) st) = messages st
  \/ messages (state_after (onWsMessage p w st) st)
     = append_unless_known (messageData w) (messages st).
Proof.
  unfold onWsMessage.
  destruct (is_message_type (ws_type w)).
  - destruct (in_conversation p (messageData w)); [right|left]; reflexivity.
  - destruct (String.eqb (ws_type w) "typing"); [|left; reflexivity].
    destruct (ws_data w) as [d|]; [|left; reflexivity].
    destruct (String.eqb _ _); left; reflexivity.
Qed.

Lemma onWsMessage_frame p w st :
  loading (state_after (onWsMessage p w st) st) = loading st
  /\ error (state_after (onWsMessage p w st) st) = error st
  /\ replyTo (state_after (onWsMessage p w st) st) = replyTo st
  /\ isSending (state_after (onWsMessage p w st) st) = isSending st.
Proof.
  unfold onWsMessage.
  destruct (is_message_type (ws_type w)).
  - destruct (in_conversation p (messageData w)); repeat split.
  - destruct (String.eqb (ws_type w) "typing"); [|repeat split].
    destruct (ws_data w) as [d|]; [|repeat split].
    destruct (String.eqb _ _); repeat split.
Qed.

Lemma deliver_keeps_sending p (ws : list WsMessage) : forall st,
  isSending (deliver p ws st) = isSending st.
Proof.
  unfold deliver. induction ws as [|w ws IH]; simpl; intros st; [reflexivity|].
  rewrite IH. apply (onWsMessage_frame p w st).
Qed.

(** X1 — Handing the push handler the same event a second time changes
    nothing: the window state after the replay is the state after the
    first delivery, for every kind of event. *)
Theorem X1_push_replay_is_idempotent (p : Props) (w : WsMessage) (st : State) :
  state_after
    (onWsMessage p w (state_after (onWsMessage p w st) st))
    (state_after (onWsMessage p w st) st)
  = state_after (onWsMessage p w st) st.
Proof.
  unfold onWsMessage.
  destruct (is_message_type (ws_type w)).
  - destruct (in_conversation p (messageData w)); simpl; [|reflexivity].
    unfold set_messages. simpl.
    rewrite append_unless_known_twice. reflexivity.
  - destruct (String.eqb (ws_type w) "typing"); simpl; [|reflexivity].
    destruct (ws_data w) as [d|]; simpl; [|reflexivity].
    destruct (String.eqb (sender (d_msg d)) (other_user_email p));
      reflexivity.
Qed.

(** X2 — The push handler never creates a duplicate identifier: if the
    displayed messages carry pairwise distinct identifiers, they still do
    after any sequence of push events. *)
Theorem X2_push_keeps_identifiers_distinct
    (p : Props) (ws : list WsMessage) (st : State) :
  NoDup (ids (messages st)) ->
  NoDup (ids (messages (deliver p ws st))).
Proof.
  unfold deliver. revert st.
  induction ws as [|w ws IH]; simpl; intros st Hnd; [exact Hnd|].
  apply IH.
  destruct (onWsMessage_messages p w st) as [E|E]; rewrite E;
    [exact Hnd | apply append_unless_known_ids; exact Hnd].
Qed.

Lemma X2_push_distinct_witness :
  NoDup (ids (messages
                (deliver Scenario.alice_bob
                   [Scenario.push Scenario.m7; Scenario.push Scenario.m7;
                    Scenario.push Scenario.m42]
                   (mkState [Scenario.m3] false None None false false)))).
Proof.
  apply (X2_push_keeps_identifiers_distinct Scenario.alice_bob).
  simpl. apply NoDup_singleton.
Defined.

(** X3 — Push events only ever append: after any sequence of events the
    displayed list is the former list followed by at most one new message
    per event, and the loading flag, the error banner, the reply target and
    the sending flag are untouched. *)
Theorem X3_push_only_appends (p : Props) (ws : list WsMessage) (st : State) :
  (exists added,
     messages (deliver p ws st) = messages st ++ added
     /\ (length added <= length ws)%nat)
  /\ loading (deliver p ws st) = loading st
  /\ error (deliver p ws st) = error st
  /\ replyTo (deliver p ws st) = replyTo st
  /\ isSending (deliver p ws st) = isSending st.
Proof.
  unfold deliver. revert st.
  induction ws as [|w ws IH]; simpl; intros st.
  - split; [exists []; rewrite List.app_nil_r; split; [reflexivity|simpl; lia]|].
    repeat split.
  - destruct (IH (state_after (onWsMessage p w st) st))
      as ((added & Hm & Hl) & H1 & H2 & H3 & H4).
    destruct (onWsMessage_frame p w st) as (F1 & F2 & F3 & F4).
    split.
    + destruct (onWsMessage_messages p w st) as [E|E]; rewrite E in Hm.
      * exists added. split; [exact Hm|lia].
      * unfold append_unless_known in Hm.
        destruct (existsb _ (messages st)).
        -- exists added. split; [exact Hm|lia].
        -- exists (messageData w :: added).
           rewrite <- List.app_assoc in Hm. split; [exact Hm|simpl; lia].
    + rewrite H1, H2, H3, H4, F1, F2, F3, F4. repeat split.
Qed.

End PushHandler.

(** ** Sends in flight *)

Section InFlight.

Import ChatWindow.

(** X4 — A send in flight blocks the handlers of the renders that follow
    it, not its own.  Once a send has started, the flag [isSending] stays
    true through any push events, so the handler built by any render that
    comes after rejects every further send, and the message input of that
    render, being disabled, hands none over.  Both continuations of the
    durable call clear the flag, and the handler of a render after them
    accepts a text that is not blank.  The handler of the render that
    started the send is not blocked: called once more on the current
    state it appends a second placeholder. *)
Theorem X4_send_blocks_later_renders
    (p : Props) (clk : Clock) (text : string) (replyToId : option string)
    (sending : bool) (st st1 : State) (opt : Message) (calls : list Call) :
  handleSendMessage_start p clk text replyToId sending st
  = Some (st1, opt, calls) ->
  sending = false
  /\ (forall ws clk' text' replyToId' cur,
        handleSendMessage_start p clk' text' replyToId'
          (isSending (deliver p ws st1)) cur = None)
  /\ (forall ws clk' inp cur,
        MessageInput.send_from_input p clk' (deliver p ws st1) inp cur
        = (inp, cur, []))
  /\ (forall ws connected newMessage,
        isSending (fst (handleSendMessage_resolve p connected text replyToId
                          opt newMessage (deliver p ws st1))) = false)
  /\ (forall ws,
        isSending (fst (handleSendMessage_reject opt (deliver p ws st1)))
        = false)
  /\ (forall clk' text' replyToId' cur,
        JS.truthy (JS.trim text') = true ->
        handleSendMessage_start p clk' text' replyToId' false cur <> None)
  /\ (forall clk' text' replyToId',
        JS.truthy (JS.trim text') = true ->
        exists st2 opt' calls',
          handleSendMessage_start p clk' text' replyToId' sending st1
          = Some (st2, opt', calls')
          /\ messages st2 = messages st ++ [opt; opt']).
Proof.
  intros Hstart.
  destruct (start_inv _ _ _ _ _ _ _ _ _ Hstart) as (_ & Hm1 & Hs & _).
  assert (Hfalse : sending = false).
  { unfold handleSendMessage_start in Hstart. destruct sending; [|reflexivity].
    rewrite send_blocked_sending in Hstart. discriminate Hstart. }
  split; [exact Hfalse|]. split.
  { intros ws clk' text' r' cur. unfold handleSendMessage_start.
    rewrite deliver_keeps_sending, Hs, send_blocked_sending. reflexivity. }
  split.
  { intros ws clk' inp cur.
    unfold MessageInput.send_from_input, MessageInput.handleSend.
    rewrite deliver_keeps_sending, Hs, orb_true_r. reflexivity. }
  split; [reflexivity|]. split; [reflexivity|]. split.
  { intros clk' text' r' cur Ht.
    rewrite start_accepts;
      [discriminate | exact Ht | apply trim_truthy_nonempty; exact Ht]. }
  intros clk' text' r' Ht. subst sending.
  rewrite start_accepts;
    [| exact Ht | apply trim_truthy_nonempty; exact Ht].
  eexists. eexists. eexists. split; [reflexivity|].
  simpl. rewrite Hm1, <- List.app_assoc. reflexivity.
Qed.

Lemma X4_send_blocks_witness :
  handleSendMessage_start Scenario.alice_bob Scenario.clock "again" None
    (isSending
       (deliver Scenario.alice_bob [Scenario.push Scenario.m7]
          (fst (handleSendMessage_sync Scenario.alice_bob Scenario.clock
                  "hello" None false Scenario.idle))))
    Scenario.idle
  = None.
Proof.
  apply (proj1 (proj2 (X4_send_blocks_later_renders Scenario.alice_bob
                         Scenario.clock "hello" None false Scenario.idle _
                         Scenario.placeholder _ eq_refl))).
Defined.

(** X5 — A durable response that arrives after the placeholder has left the
    list is dropped: the continuation never adds or removes an entry, and
    when no entry carries the temporary identifier the list stays as it
    is.  In particular, if the conversation was reloaded while the send was
    in flight, the display is the reloaded history and the returned message
    is not shown. *)
Theorem X5_late_response_is_dropped
    (p : Props) (clk : Clock) (connected : bool) (text : string)
    (replyToId : option string) (sending : bool) (st st1 : State)
    (opt newMessage : Message) (calls : list Call)
    (history : list Message) :
  handleSendMessage_start p clk text replyToId sending st
  = Some (st1, opt, calls) ->
  (forall m, In m history -> message_id m <> message_id opt) ->
  (forall st2,
     length (messages (fst (handleSendMessage_resolve p connected text
                              replyToId opt newMessage st2)))
     = length (messages st2))
  /\ messages
       (fst (handleSendMessage_resolve p connected text replyToId opt
               newMessage
               (loadMessages_resolve (Some (mkResponse (Some history))) st1)))
     = rev history.
Proof.
  intros _ Hfresh. split.
  - intros st2. simpl. unfold replace_optimistic. apply List.length_map.
  - simpl. apply replace_optimistic_fresh.
    intros m Hm. apply Hfresh, List.in_rev. exact Hm.
Qed.

Lemma X5_late_response_witness :
  messages
    (fst (handleSendMessage_resolve Scenario.alice_bob true "hello" None
            Scenario.placeholder Scenario.m42
            (loadMessages_resolve
               (Some (mkResponse (Some [Scenario.m7; Scenario.m3])))
               (fst (handleSendMessage_sync Scenario.alice_bob Scenario.clock
                       "hello" None false Scenario.idle)))))
  = [Scenario.m3; Scenario.m7].
Proof.
  refine (proj2 (X5_late_response_is_dropped Scenario.alice_bob
                   Scenario.clock true "hello" None false Scenario.idle _
                   Scenario.placeholder Scenario.m42 _
                   [Scenario.m7; Scenario.m3] eq_refl _)).
  intros m [<-|[<-|[]]]; vm_compute; discriminate.
Defined.

End InFlight.

(** ** Editing and deleting displayed messages *)

Section EditDelete.

Import ChatWindow.

Lemma filter_sublist_of {A} (f : A -> bool) (l : list A) :
  sublist (List.filter f l) l.
Proof.
  induction l as [|a l IH]; simpl; [constructor|].
  destruct (f a); [apply sublist_skip | apply sublist_cons]; exact IH.
Qed.

(** X6 — After a confirmed delete whose durable call succeeded, no
    displayed message carries the deleted identifier, every other message
    is kept, in the same relative order, and deleting an identifier that is
    not displayed changes nothing.  A refused confirmation issues no call,
    and a failed call leaves the list as it was. *)
Theorem X6_delete_removes_exactly (messageId : string) (st : State) :
  (forall m, In m (messages (handleDeleteMessage_resolve messageId st))
             <-> In m (messages st) /\ message_id m <> messageId)
  /\ sublist (messages (handleDeleteMessage_resolve messageId st))
             (messages st)
  /\ count_id messageId (messages (handleDeleteMessage_resolve messageId st))
     = 0%nat
  /\ ((forall m, In m (messages st) -> message_id m <> messageId) ->
      handleDeleteMessage_resolve messageId st = st)
  /\ handleDeleteMessage_start false messageId = []
  /\ messages (handleDeleteMessage_reject st) = messages st.
Proof.
  split; [|split; [|split; [|split; [|split]]]].
  - intros m. simpl. rewrite List.filter_In, negb_true_iff.
    destruct (String.eqb_spec (message_id m) messageId); split;
      intros [H1 H2]; split; congruence.
  - simpl. apply filter_sublist_of.
  - apply count_id_fresh. intros m Hm. simpl in Hm.
    apply List.filter_In in Hm as [_ Hm]. apply negb_true_iff in Hm.
    apply String.eqb_neq. exact Hm.
  - intros Hfresh. destruct st as [msgs l e r t s]. unfold
      handleDeleteMessage_resolve, set_messages. simpl. f_equal.
    simpl in Hfresh. induction msgs as [|a msgs IH]; simpl; [reflexivity|].
    destruct (String.eqb_spec (message_id a) messageId) as [E|E]; simpl.
    + exfalso. apply (Hfresh a); [left; reflexivity|exact E].
    + f_equal. apply IH. intros m Hm. apply Hfresh. right. exact Hm.
  - reflexivity.
  - reflexivity.
Qed.

(** X7 — A successful edit keeps the list in shape: the number of displayed
    messages and the position of every message are unchanged, a message is
    replaced by the returned one exactly when it carries the edited
    identifier, and when the returned message carries that identifier the
    sequence of identifiers is unchanged.  A failed edit leaves the list as
    it was. *)
Theorem X7_edit_keeps_positions
    (messageId : string) (updatedMessage : Message) (st : State) :
  length (messages (handleEditMessage_resolve messageId updatedMessage st))
  = length (messages st)
  /\ (forall i m,
        messages st !! i = Some m ->
        messages (handleEditMessage_resolve messageId updatedMessage st) !! i
        = Some (if String.eqb (message_id m) messageId
                then updatedMessage else m))
  /\ (message_id updatedMessage = messageId ->
      ids (messages (handleEditMessage_resolve messageId updatedMessage st))
      = ids (messages st))
  /\ messages (handleEditMessage_reject st) = messages st.
Proof.
  split; [|split; [|split]].
  - simpl. apply List.length_map.
  - intros i m Hi. simpl. rewrite list_lookup_fmap, Hi. reflexivity.
  - intros Hid. simpl. unfold ids. rewrite List.map_map.
    apply List.map_ext. intros m.
    destruct (String.eqb_spec (message_id m) messageId); congruence.
  - reflexivity.
Qed.

Lemma X7_edit_witness :
  messages (handleEditMessage_resolve "m7"
              (mkMessage "m7" "bob@example.com" "alice@example.com"
                         "hi there" "2023-11-14T22:10:00.000Z" "Sent" None
                         true)
              (mkState [Scenario.m3; Scenario.m7; Scenario.m42] false None
                       None false false)) !! 1%nat
  = Some (mkMessage "m7" "bob@example.com" "alice@example.com"
                    "hi there" "2023-11-14T22:10:00.000Z" "Sent" None true).
Proof.
  apply (proj1 (proj2 (X7_edit_keeps_positions "m7" _
           (mkState [Scenario.m3; Scenario.m7; Scenario.m42] false None
                    None false false))) 1%nat Scenario.m7).
  reflexivity.
Defined.

(** X8 — Saving an edit always leaves edit mode.  It hands [onEdit] the
    message's identifier and the trimmed text, and does so only when that
    text is not blank and the raw text differs from the message's content;
    what is handed over is therefore never empty and has no surrounding
    white space.  The durable call made for it carries the same
    identifier and text. *)
Theorem X8_save_edit_submits_trimmed_text
    (message : Message) (st : MessageView.State) :
  MessageView.isEditing (fst (MessageView.handleSaveEdit message st)) = false
  /\ (forall e,
        snd (MessageView.handleSaveEdit message st) = Some e ->
        MessageView.edit_id e = message_id message
        /\ MessageView.edit_content e = JS.trim (MessageView.editContent st)
        /\ MessageView.edit_content e <> ""
        /\ JS.trim (MessageView.edit_content e) = MessageView.edit_content e
        /\ MessageView.editContent st <> content message
        /\ MessageView.edit_calls (snd (MessageView.handleSaveEdit message st))
           = [ApiEditMessage (message_id message)
                             (JS.trim (MessageView.editContent st))])
  /\ (MessageView.editContent st = content message
      \/ JS.whitespace_only (MessageView.editContent st) = true ->
      MessageView.edit_calls (snd (MessageView.handleSaveEdit message st))
      = []).
Proof.
  split; [reflexivity|]. split.
  - intros e. unfold MessageView.handleSaveEdit. simpl.
    destruct (JS.truthy (JS.trim (MessageView.editContent st))) eqn:Et;
      simpl; [|discriminate].
    destruct (String.eqb_spec (MessageView.editContent st) (content message))
      as [E|E]; simpl; [discriminate|].
    intros H. injection H as <-. simpl.
    repeat split; try assumption.
    + intros H. rewrite H in Et. discriminate Et.
    + apply trim_idempotent.
  - intros [H|H]; unfold MessageView.handleSaveEdit; simpl.
    + rewrite H, String.eqb_refl, andb_false_r. reflexivity.
    + rewrite (trim_whitespace_only _ H). reflexivity.
Qed.

Lemma X8_save_edit_witness :
  MessageView.edit_calls
    (snd (MessageView.handleSaveEdit Scenario.m3
            (MessageView.mkState false true "ping")))
  = [].
Proof.
  apply (proj2 (proj2 (X8_save_edit_submits_trimmed_text Scenario.m3
                         (MessageView.mkState false true "ping")))).
  left. reflexivity.
Defined.

(** X9 — What the user typed reaches the durable call trimmed, once: when
    the typed text is not blank and the render the input belongs to saw no
    send in flight, the input is cleared, the reply target of that render
    is consumed, the placeholder appended to the window carries the
    trimmed text, and the one durable call carries the trimmed text too
    (the window trims again, which changes nothing). *)
Theorem X9_typed_text_is_sent_trimmed
    (p : Props) (clk : Clock) (seen : State) (inp : MessageInput.State)
    (win : State) :
  JS.truthy (JS.trim (MessageInput.message inp)) = true ->
  isSending seen = false ->
  exists win' opt,
    MessageInput.send_from_input p clk seen inp win
    = (MessageInput.mkState "" false, win',
       [send_call p (JS.trim (MessageInput.message inp))
                  (option_map message_id (replyTo seen))])
    /\ messages win' = messages win ++ [opt]
    /\ content opt = JS.trim (MessageInput.message inp)
    /\ reply_to opt = or_null (option_map message_id (replyTo seen))
    /\ replyTo win' = None
    /\ isSending win' = true
    /\ send_call p (JS.trim (MessageInput.message inp))
                 (option_map message_id (replyTo seen))
       = (if String.eqb (other_user_email p) BOT_EMAIL
          then ApiSendBotMessage else ApiSendMessage)
           (other_user_email p) (JS.trim (MessageInput.message inp))
           (or_null (option_map message_id (replyTo seen))).
Proof.
  intros Ht Hs.
  unfold MessageInput.send_from_input, MessageInput.handleSend.
  rewrite Ht, Hs. simpl negb. simpl orb. cbv iota.
  unfold handleSendMessage_sync. simpl MessageInput.sent_content.
  simpl MessageInput.sent_replyToId.
  rewrite start_accepts;
    [|rewrite trim_idempotent; exact Ht
     |intros E; rewrite E in Ht; discriminate Ht].
  eexists. eexists. split; [reflexivity|].
  repeat split.
  - simpl. apply trim_idempotent.
  - unfold send_call. rewrite trim_idempotent.
    destruct (String.eqb _ _); reflexivity.
Qed.

Lemma X9_typed_text_witness :
  exists win' opt,
    MessageInput.send_from_input Scenario.alice_bob Scenario.clock
      Scenario.idle (MessageInput.mkState "  hello 　" true) Scenario.idle
    = (MessageInput.mkState "" false, win',
       [ApiSendMessage "bob@example.com" "hello" None])
    /\ messages win' = [opt] /\ content opt = "hello".
Proof.
  destruct (X9_typed_text_is_sent_trimmed Scenario.alice_bob Scenario.clock
              Scenario.idle (MessageInput.mkState "  hello 　" true)
              Scenario.idle eq_refl eq_refl)
    as (win' & opt & H1 & H2 & H3 & _).
  exists win', opt. split; [exact H1|]. split; [exact H2 | exact H3].
Defined.

End EditDelete.

Lemma X6_delete_witness :
  ChatWindow.messages (ChatWindow.handleDeleteMessage_resolve "m42"
              (ChatWindow.mkState
                 [Scenario.m3; Scenario.m42; Scenario.m7; Scenario.m42]
                 false None None false false))
  = [Scenario.m3; Scenario.m7]
  /\ ChatWindow.handleDeleteMessage_resolve "m9"
       (ChatWindow.mkState [Scenario.m3; Scenario.m7] false None None
                           false false)
     = ChatWindow.mkState [Scenario.m3; Scenario.m7] false None None
                          false false.
Proof.
  split; [reflexivity|].
  apply (proj1 (proj2 (proj2 (proj2
           (X6_delete_removes_exactly "m9"
              (ChatWindow.mkState [Scenario.m3; Scenario.m7] false None None
                                  false false)))))).
  intros m [<-|[<-|[]]]; vm_compute; discriminate.
Defined.

(** ** More on the reconnect machine *)

Section ReconnectMore.

Import WebSocketContext.

Lemma run_counts_fired es : forall c c',
  run es c = Some c' -> has_open es = false ->
  reconnectAttempts c' = (reconnectAttempts c + fired es)%nat.
Proof.
  induction es as [|e es IH]; simpl; intros c c' Hrun Hno.
  - injection Hrun as <-. unfold fired. simpl. lia.
  - destruct (step e c) as [c1|] eqn:E; [|discriminate Hrun].
    destruct e as [i|i|i ready]; simpl in Hno; [discriminate Hno| |].
    + rewrite (IH c1 c' Hrun Hno). simpl in E.
      destruct (sockets c !! i); [|discriminate E].
      injection E as <-. unfold fired. simpl. reflexivity.
    + rewrite (IH c1 c' Hrun Hno). simpl in E.
      destruct (timers c !! i); [|discriminate E].
      injection E as <-. unfold fired, ontimeout, connect.
      destruct ready; simpl; lia.
Qed.

(** X10 — Without a successful open, the provider reconnects at most five
    times: in every run of the machine that contains no open, the number
    of reconnect timers that fired equals the attempt counter and is at
    most 5. *)
Theorem X10_at_most_five_reconnects_in_a_row (es : list Event) (c : Conn) :
  run es initial = Some c ->
  has_open es = false ->
  fired es = reconnectAttempts c /\ (fired es <= 5)%nat.
Proof.
  intros Hrun Hno.
  pose proof (run_counts_fired es initial c Hrun Hno) as E. simpl in E.
  split; [symmetry; exact E|].
  destruct (reachable_single_chain c (ex_intro _ es Hrun))
    as [(_ & _ & H)|(_ & _ & H)]; unfold maxReconnectAttempts in H; lia.
Qed.

Lemma X10_five_reconnects_witness :
  fired five_failures = 5%nat
  /\ run (five_failures ++ [Closed 0; TimerFired 0 true]) initial = None.
Proof.
  split; [|reflexivity].
  destruct (X10_at_most_five_reconnects_in_a_row five_failures
              (mkConn 5 false [CONNECTING] []) eq_refl eq_refl) as [E _].
  exact E.
Defined.

Lemma step_connected_flag e c c' :
  single_chain c ->
  (isConnected c = true <-> sockets c = [OPEN]) ->
  step e c = Some c' ->
  (isConnected c' = true <-> sockets c' = [OPEN]).
Proof.
  intros Hinv Hflag Hstep. destruct e as [i|i|i ready]; simpl in Hstep.
  - destruct (sockets c !! i) as [[|]|] eqn:El; try discriminate Hstep.
    injection Hstep as <-. simpl.
    destruct Hinv as [(_ & Hl & _)|(_ & Hs & _)].
    + destruct (lookup_singleton_or_nil _ _ _ Hl El) as [-> ->].
      simpl. tauto.
    + rewrite Hs in El. discriminate El.
  - destruct (sockets c !! i) as [r|] eqn:El; try discriminate Hstep.
    injection Hstep as <-. simpl.
    destruct Hinv as [(_ & Hl & _)|(_ & Hs & _)].
    + destruct (lookup_singleton_or_nil _ _ _ Hl El) as [-> ->].
      simpl. split; discriminate.
    + rewrite Hs in El. discriminate El.
  - destruct (timers c !! i) as [d|] eqn:El; try discriminate Hstep.
    injection Hstep as <-.
    destruct Hinv as [(Ht & _ & _)|(_ & Hs & _)].
    + rewrite Ht in El. discriminate El.
    + rewrite Hs in Hflag. unfold ontimeout, connect.
      destruct ready; simpl; rewrite Hs; simpl;
        (split; [intros H; apply Hflag in H; discriminate H | discriminate]).
Qed.

Lemma run_connected_flag es : forall c c',
  single_chain c ->
  (isConnected c = true <-> sockets c = [OPEN]) ->
  run es c = Some c' ->
  (isConnected c' = true <-> sockets c' = [OPEN]).
Proof.
  induction es as [|e es IH]; simpl; intros c c' Hinv Hflag Hrun.
  - injection Hrun as <-. exact Hflag.
  - destruct (step e c) as [c1|] eqn:E; [|discriminate Hrun].
    apply (IH c1 c'); [| |exact Hrun].
    + apply (step_single_chain e c c1); assumption.
    + apply (step_connected_flag e c c1); assumption.
Qed.

(** X11 — The connected flag tells the truth: in every state the machine
    reaches, [isConnected] is true exactly when the provider holds an open
    socket, and then it holds no other socket and no reconnect is
    pending. *)
Theorem X11_connected_flag_is_accurate (c : Conn) :
  reachable c ->
  (isConnected c = true <-> sockets c = [OPEN])
  /\ (isConnected c = true -> timers c = []).
Proof.
  intros [es Hrun].
  assert (Hflag : isConnected c = true <-> sockets c = [OPEN]).
  { apply (run_connected_flag es initial c); [| |exact Hrun].
    - left. simpl. unfold maxReconnectAttempts. repeat split; lia.
    - simpl. split; discriminate. }
  split; [exact Hflag|].
  intros Hc. apply Hflag in Hc.
  destruct (reachable_single_chain c (ex_intro _ es Hrun))
    as [(Ht & _)|(_ & Hs & _)]; [exact Ht|].
  rewrite Hs in Hc. discriminate Hc.
Qed.

Lemma X11_connected_flag_witness :
  isConnected (mkConn 0 true [OPEN] []) = true
  <-> sockets (mkConn 0 true [OPEN] []) = [OPEN].
Proof.
  apply (proj1 (X11_connected_flag_is_accurate (mkConn 0 true [OPEN] [])
                  (ex_intro _ [Opened 0] eq_refl))).
Defined.

End ReconnectMore.

(** ** The stored session and the socket *)

Section StoredSession.

Import AuthContext.

Lemma apply_keeps_other_keys op s key :
  key <> "accessToken" -> key <> "user" ->
  fst (apply op s) !! key = fst s !! key.
Proof.
  intros H1 H2. destruct s as [ls st].
  destruct op as [current|r| | |u|]; simpl.
  - unfold initAuth.
    destruct (WebSocketContext.stored ls "accessToken"
              && WebSocketContext.stored ls "user"); [|reflexivity].
    destruct current; simpl; [reflexivity|].
    unfold clear_auth. rewrite !lookup_delete_ne by congruence. reflexivity.
  - unfold login_resolve.
    destruct (access_token r) as [tok|]; [|reflexivity].
    destruct (JS.truthy tok); [|reflexivity].
    destruct (resp_user r); simpl;
      rewrite !lookup_insert_ne by congruence; reflexivity.
  - reflexivity.
  - unfold clear_auth. rewrite !lookup_delete_ne by congruence. reflexivity.
  - rewrite lookup_insert_ne by congruence. reflexivity.
  - unfold clear_auth. rewrite !lookup_delete_ne by congruence. reflexivity.
Qed.

Lemma run_keeps_other_keys ops : forall s key,
  key <> "accessToken" -> key <> "user" ->
  fst (run ops s) !! key = fst s !! key.
Proof.
  unfold run. induction ops as [|op ops IH]; simpl; intros s key H1 H2;
    [reflexivity|].
  rewrite IH by assumption. apply apply_keeps_other_keys; assumption.
Qed.

(** X12 — The session operations (initial check, login, logout, profile
    update, the 401 handling of the request helper) read and write the
    local-storage keys "accessToken" and "user" only, while [connect] looks
    for its token under "whatsease_token".  Hence no sequence of session
    operations changes what [connect] finds, and on a storage without
    that key the provider's [connect] builds no socket, logged in or
    not. *)
Theorem X12_session_never_stores_socket_token
    (ops : list Op) (ls : gmap string string) (st : State) :
  fst (run ops (ls, st)) !! WebSocketContext.TOKEN
  = ls !! WebSocketContext.TOKEN
  /\ (ls !! WebSocketContext.TOKEN = None ->
      forall c,
        WebSocketContext.connect_with (user (snd (run ops (ls, st))))
          (fst (run ops (ls, st))) c = c).
Proof.
  assert (E : fst (run ops (ls, st)) !! WebSocketContext.TOKEN
              = ls !! WebSocketContext.TOKEN).
  { apply (run_keeps_other_keys ops (ls, st)); discriminate. }
  split; [exact E|].
  intros Hnone c. unfold WebSocketContext.connect_with,
    WebSocketContext.connect_guard, WebSocketContext.stored.
  rewrite E, Hnone. destruct (user _); reflexivity.
Qed.

Lemma X12_session_witness :
  WebSocketContext.connect_with
    (user (snd (run [LoginResolved
                       (mkLoginResponse (Some "jwt") (Some "{alice}"))]
                    (∅, mkState None false false))))
    (fst (run [LoginResolved (mkLoginResponse (Some "jwt") (Some "{alice}"))]
              (∅, mkState None false false)))
    (WebSocketContext.mkConn 0 false [] [])
  = WebSocketContext.mkConn 0 false [] [].
Proof.
  apply (proj2 (X12_session_never_stores_socket_token
                  [LoginResolved (mkLoginResponse (Some "jwt")
                                                  (Some "{alice}"))]
                  ∅ (mkState None false false))).
  reflexivity.
Defined.

End StoredSession.

(** ** The chat list *)

Section ChatListMore.

Import ChatList.

Lemma filter_regular_twice (l : list Chat) :
  List.filter (fun chat => negb (is_bot chat))
    (List.filter (fun chat => negb (is_bot chat)) l)
  = List.filter (fun chat => negb (is_bot chat)) l.
Proof.
  induction l as [|a l IH]; simpl; [reflexivity|].
  destruct (is_bot a) eqn:E; simpl; [exact IH|].
  rewrite E. simpl. f_equal. exact IH.
Qed.

Lemma regular_length (l : list Chat) :
  length (List.filter (fun chat => negb (is_bot chat)) l)
  = (length l - count_bot l)%nat.
Proof.
  unfold count_bot. induction l as [|a l IH]; simpl; [reflexivity|].
  pose proof (List.filter_length_le is_bot l) as Hle.
  destruct (is_bot a); simpl; lia.
Qed.

Lemma set_online_fixed chat : is_online chat = true -> set_online chat = chat.
Proof. destruct chat; simpl. intros ->. reflexivity. Qed.

(** X13 — Processing the chat list is idempotent and touches only the
    automated correspondent: processing an already processed list changes
    nothing; the other chats come out in the order and with the presence
    flags the server gave them; the result has one entry more than there
    are other chats, so duplicate entries of the automated correspondent
    are dropped. *)
Theorem X13_processedChats_idempotent (iso iso' : string) (chats : list Chat) :
  processedChats iso' (processedChats iso chats) = processedChats iso chats
  /\ List.filter (fun chat => negb (is_bot chat)) (processedChats iso chats)
     = List.filter (fun chat => negb (is_bot chat)) chats
  /\ length (processedChats iso chats)
     = S (length chats - count_bot chats).
Proof.
  destruct (processedChats_shape iso chats) as (bot & Hp & He & Ho).
  assert (Hb : is_bot bot = true) by (apply String.eqb_eq; exact He).
  split; [|split].
  - rewrite Hp. unfold processedChats. simpl. rewrite Hb. simpl.
    rewrite filter_regular_twice, (set_online_fixed bot Ho). reflexivity.
  - rewrite Hp. simpl. rewrite Hb. simpl. apply filter_regular_twice.
  - rewrite Hp. simpl. f_equal. apply regular_length.
Qed.

End ChatListMore.

(** ** Searching the chat list *)

Section Search.

Import JS ChatList.

Local Open Scope string_scope.

Lemma startsWith_shorter p x : forall s,
  startsWith s (p ++ x) = true -> startsWith s p = true.
Proof.
  induction p as [|c p IH]; intros s H; [apply startsWith_empty|].
  destruct s as [|d s]; simpl in *; [discriminate H|].
  apply andb_true_iff in H as [H1 H2].
  rewrite H1. simpl. apply IH. exact H2.
Qed.

Lemma includes_shorter p x s :
  includes s (p ++ x) = true -> includes s p = true.
Proof.
  induction s as [|d s IH]; simpl; intros H.
  - rewrite orb_false_r in *. apply (startsWith_shorter p x ""). exact H.
  - apply orb_true_iff in H as [H|H]; apply orb_true_iff.
    + left. apply (startsWith_shorter p x (String d s)). exact H.
    + right. apply IH. exact H.
Qed.

Lemma matches_with_shorter (lower : string -> string) q qx chat :
  (exists y, lower qx = lower q ++ y) ->
  matches_with lower qx chat = true -> matches_with lower q chat = true.
Proof.
  intros [y Hy]. unfold matches_with. rewrite Hy. intros H.
  apply orb_true_iff in H as [H|H]; [apply orb_true_iff in H as [H|H]|].
  - apply includes_shorter in H. rewrite H. reflexivity.
  - apply includes_shorter in H. rewrite H. apply orb_true_iff. left.
    apply orb_true_r.
  - apply orb_true_iff. right.
    destruct (last_message chat) as [m|]; [|discriminate H].
    apply andb_true_iff in H as [H1 H2].
    apply includes_shorter in H2. rewrite H1, H2. reflexivity.
Qed.

Lemma filteredChats_is_filteredChats_with iso q chats :
  filteredChats iso q chats = filteredChats_with toLowerCase iso q chats.
Proof. reflexivity. Qed.

(** X14 — Typing more characters into the search box never brings a chat
    back, as long as lower-casing the longer query extends the lower-cased
    shorter one (as it does for ASCII queries; it need not, for instance
    across a final sigma): then every entry rendered for the longer query
    is also rendered for the shorter one, in the same relative order.
    Whatever the query, the entries rendered are entries of the processed
    list, in the same relative order.  This holds for any lower-casing
    function. *)
Theorem X14_longer_query_narrows_search
    (lower : string -> string) (iso q x : string) (chats : list Chat) :
  (exists y, lower (q ++ x) = lower q ++ y) ->
  (forall chat, In chat (filteredChats_with lower iso (q ++ x) chats) ->
                In chat (filteredChats_with lower iso q chats))
  /\ sublist (filteredChats_with lower iso (q ++ x) chats)
             (filteredChats_with lower iso q chats)
  /\ sublist (filteredChats_with lower iso q chats) (processedChats iso chats).
Proof.
  intros Hlow. unfold filteredChats_with. split; [|split].
  - intros chat H. apply List.filter_In in H as [H1 H2].
    apply List.filter_In. split; [exact H1|].
    apply (matches_with_shorter lower q (q ++ x) chat Hlow H2).
  - induction (processedChats iso chats) as [|a l IH]; simpl; [constructor|].
    destruct (matches_with lower (q ++ x) a) eqn:E.
    + rewrite (matches_with_shorter lower q (q ++ x) a Hlow E).
      apply sublist_skip. exact IH.
    + destruct (matches_with lower q a); [apply sublist_cons|]; exact IH.
  - apply filter_sublist_of.
Qed.

Lemma X14_search_witness :
  In Scenario.bob_chat
    (filteredChats "2023-11-14T22:13:20.000Z" "bo" [Scenario.bob_chat]).
Proof.
  rewrite filteredChats_is_filteredChats_with.
  apply (proj1 (X14_longer_query_narrows_search toLowerCase
                  "2023-11-14T22:13:20.000Z" "bo" "b" [Scenario.bob_chat]
                  (ex_intro _ "b" eq_refl))).
  vm_compute. left. reflexivity.
Defined.

End Search.

(** ** The entry formatters of the chat list *)

Section EntryFormat.

Import ChatListView.

Local Open Scope string_scope.

(** X15 — The preview of a last message is never longer than [maxLength]
    code units plus the three dots: a message of at most [maxLength] code
    units is shown as it is, a longer one is cut to its first [maxLength]
    code units followed by "...", and a missing or empty message shows
    "No messages yet". *)
Theorem X15_truncateMessage_bounds (m : list N) (maxLength : nat) :
  m <> [] ->
  ((length m <= maxLength)%nat -> truncateMessage (Some m) maxLength = m)
  /\ ((maxLength < length m)%nat ->
        truncateMessage (Some m) maxLength
        = (take maxLength m ++ units_of_ascii "...")%list
        /\ length (truncateMessage (Some m) maxLength) = (maxLength + 3)%nat)
  /\ (length (truncateMessage (Some m) maxLength) <= maxLength + 3)%nat
  /\ truncateMessage None maxLength = units_of_ascii "No messages yet"
  /\ truncateMessage (Some []) maxLength = units_of_ascii "No messages yet".
Proof.
  intros Hne.
  assert (Hlong : (maxLength < length m)%nat ->
            truncateMessage (Some m) maxLength
            = (take maxLength m ++ units_of_ascii "...")%list
            /\ length (truncateMessage (Some m) maxLength)
               = (maxLength + 3)%nat).
  { intros H. unfold truncateMessage. destruct m as [|u m]; [contradiction|].
    destruct (Nat.ltb_spec maxLength (length (u :: m))); [|lia].
    split; [reflexivity|].
    rewrite List.length_app, length_take. simpl length in *. lia. }
  assert (Hshort : (length m <= maxLength)%nat ->
            truncateMessage (Some m) maxLength = m).
  { intros H. unfold truncateMessage. destruct m as [|u m]; [contradiction|].
    destruct (Nat.ltb_spec maxLength (length (u :: m))); [lia|reflexivity]. }
  repeat split; try assumption; try apply Hlong; try assumption.
  destruct (Nat.le_gt_cases (length m) maxLength) as [H|H].
  - rewrite (Hshort H). lia.
  - destruct (Hlong H) as [_ ->]. lia.
Qed.

Lemma X15_truncateMessage_witness :
  truncateMessage
    (Some (units_of_ascii "Hello there, are we still meeting at noon today?"))
    40
  = units_of_ascii "Hello there, are we still meeting at noo..."
  /\ length (truncateMessage (Some (List.repeat 233%N 41)) 40) = 43%nat.
Proof.
  split; [reflexivity|].
  apply (proj1 (proj2 (X15_truncateMessage_bounds (List.repeat 233%N 41) 40
                         ltac:(discriminate)))).
  simpl. lia.
Defined.

(** X16 — The relative time of a chat entry.  For a parsable timestamp of
    age [now - date]: below one minute (a timestamp in the future
    included) the label is "Just now"; below one hour it is "<n>m ago" with
    n between 1 and 59; below one day "<n>h ago" with n between 1 and 23;
    below seven days "<n>d ago" with n between 1 and 6; from seven days on
    the short date.  A missing or empty timestamp gives the empty string,
    an unparsable one "Invalid Date". *)
Theorem X16_formatTimestamp_labels (h : DateUtils.Host) :
  formatTimestamp h None = ""
  /\ formatTimestamp h (Some "") = ""
  /\ (forall ts, ts <> "" -> DateUtils.parse h ts = None ->
        formatTimestamp h (Some ts) = "Invalid Date")
  /\ (forall ts date,
        ts <> "" -> DateUtils.parse h ts = Some date ->
        ((DateUtils.now h - date < 60000)%Z ->
           formatTimestamp h (Some ts) = "Just now")
        /\ ((60000 <= DateUtils.now h - date < 3600000)%Z ->
              exists n, (1 <= n <= 59)%Z
                        /\ formatTimestamp h (Some ts) = pretty n ++ "m ago")
        /\ ((3600000 <= DateUtils.now h - date < 86400000)%Z ->
              exists n, (1 <= n <= 23)%Z
                        /\ formatTimestamp h (Some ts) = pretty n ++ "h ago")
        /\ ((86400000 <= DateUtils.now h - date < 604800000)%Z ->
              exists n, (1 <= n <= 6)%Z
                        /\ formatTimestamp h (Some ts) = pretty n ++ "d ago")
        /\ ((604800000 <= DateUtils.now h - date)%Z ->
              formatTimestamp h (Some ts)
              = DateUtils.toLocale h DateUtils.MonthShortDay date)).
Proof.
  split; [reflexivity|]. split; [reflexivity|]. split.
  - intros ts Hne Hp. unfold formatTimestamp.
    destruct ts; [contradiction|]. simpl JS.truthy. cbv iota.
    rewrite Hp. reflexivity.
  - intros ts date Hne Hp.
    assert (E : formatTimestamp h (Some ts)
                = let diffInMs := (DateUtils.now h - date)%Z in
                  if (diffInMs <? 3600000)%Z then
                    if (diffInMs / 60000 <? 1)%Z then "Just now"
                    else pretty (diffInMs / 60000)%Z ++ "m ago"
                  else if (diffInMs <? 86400000)%Z then
                    pretty (diffInMs / 3600000)%Z ++ "h ago"
                  else if (diffInMs <? 604800000)%Z then
                    pretty (diffInMs / 86400000)%Z ++ "d ago"
                  else DateUtils.toLocale h DateUtils.MonthShortDay date).
    { unfold formatTimestamp. destruct ts; [contradiction|].
      simpl JS.truthy. cbv iota. rewrite Hp. reflexivity. }
    rewrite E. cbv zeta. clear E.
    set (age := (DateUtils.now h - date)%Z).
    repeat split.
    + intros H.
      destruct (Z.ltb_spec age 3600000); [|lia].
      assert (age / 60000 < 1)%Z by (apply Z.div_lt_upper_bound; lia).
      destruct (Z.ltb_spec (age / 60000) 1); [reflexivity|lia].
    + intros H. exists (age / 60000)%Z.
      assert (1 <= age / 60000)%Z by (apply Z.div_le_lower_bound; lia).
      assert (age / 60000 < 60)%Z by (apply Z.div_lt_upper_bound; lia).
      split; [lia|].
      destruct (Z.ltb_spec age 3600000); [|lia].
      destruct (Z.ltb_spec (age / 60000) 1); [lia|reflexivity].
    + intros H. exists (age / 3600000)%Z.
      assert (1 <= age / 3600000)%Z by (apply Z.div_le_lower_bound; lia).
      assert (age / 3600000 < 24)%Z by (apply Z.div_lt_upper_bound; lia).
      split; [lia|].
      destruct (Z.ltb_spec age 3600000); [lia|].
      destruct (Z.ltb_spec age 86400000); [reflexivity|lia].
    + intros H. exists (age / 86400000)%Z.
      assert (1 <= age / 86400000)%Z by (apply Z.div_le_lower_bound; lia).
      assert (age / 86400000 < 7)%Z by (apply Z.div_lt_upper_bound; lia).
      split; [lia|].
      destruct (Z.ltb_spec age 3600000); [lia|].
      destruct (Z.ltb_spec age 86400000); [lia|].
      destruct (Z.ltb_spec age 604800000); [reflexivity|lia].
    + intros H.
      destruct (Z.ltb_spec age 3600000); [lia|].
      destruct (Z.ltb_spec age 86400000); [lia|].
      destruct (Z.ltb_spec age 604800000); [lia|reflexivity].
Qed.

Lemma X16_formatTimestamp_witness :
  exists n, (1 <= n <= 59)%Z
            /\ formatTimestamp Scenario.host (Some "2023-11-14T22:13:20Z")
               = pretty n ++ "m ago".
Proof.
  apply (proj1 (proj2 (proj2 (proj2 (proj2
           (X16_formatTimestamp_labels Scenario.host)))
           "2023-11-14T22:13:20Z" 1700000000000%Z
           ltac:(discriminate) eq_refl))).
  simpl. lia.
Defined.

End EntryFormat.

(** ** Presence in the dashboard *)

Section Presence.

Import ChatList ChatDashboard.

Lemma online_of_fold (l : list Chat) : forall (acc : gset string) u,
  u ∈ fold_left (fun online chat =>
                   if is_online chat then {[other_user_email chat]} ∪ online
                   else online) l acc
  <-> u ∈ acc
      \/ exists chat, In chat l /\ is_online chat = true
                      /\ other_user_email chat = u.
Proof.
  induction l as [|a l IH]; simpl; intros acc u.
  - split; [auto|]. intros [H|(chat & [] & _)]. exact H.
  - rewrite IH. split.
    + intros [H|(chat & Hin & Ho & He)].
      * destruct (is_online a) eqn:Ea; [|left; exact H].
        apply elem_of_union in H as [H|H]; [|left; exact H].
        apply elem_of_singleton in H. right. exists a. auto.
      * right. exists chat. auto.
    + intros [H|(chat & [<-|Hin] & Ho & He)].
      * left. destruct (is_online a); [|exact H].
        apply elem_of_union. right. exact H.
      * left. rewrite Ho. apply elem_of_union. left.
        apply elem_of_singleton. symmetry. exact He.
      * right. exists chat. auto.
Qed.

Lemma online_of_spec (l : list Chat) u :
  u ∈ online_of l
  <-> exists chat, In chat l /\ is_online chat = true
                   /\ other_user_email chat = u.
Proof.
  unfold online_of. rewrite online_of_fold. split; [|auto].
  intros [H|H]; [|exact H]. apply not_elem_of_empty in H. contradiction.
Qed.

Lemma with_online_email b chat :
  other_user_email (with_online b chat) = other_user_email chat.
Proof. reflexivity. Qed.

Lemma status_change_chats u b st chat' :
  In chat' (chats (onUserStatusChange u b st)) ->
  exists chat, In chat (chats st)
    /\ other_user_email chat' = other_user_email chat
    /\ (other_user_email chat = u -> chat' = with_online b chat)
    /\ (other_user_email chat <> u -> chat' = chat).
Proof.
  simpl. intros H. apply List.in_map_iff in H as (chat & E & Hin).
  exists chat. split; [exact Hin|].
  destruct (String.eqb_spec (other_user_email chat) u) as [Eu|Eu];
    subst chat'; repeat split; try reflexivity; intros; congruence.
Qed.

Lemma status_change_emails u b st :
  List.map other_user_email (chats (onUserStatusChange u b st))
  = List.map other_user_email (chats st).
Proof.
  simpl. rewrite List.map_map. apply List.map_ext. intros chat.
  destruct (String.eqb _ _); reflexivity.
Qed.

Lemma after_processing_in (l : list Chat) chat :
  In chat (chats_after_processing l) ->
  In chat l \/ other_user_email chat = BOT_EMAIL.
Proof.
  induction l as [|a l IH]; simpl; [tauto|].
  destruct (is_bot a) eqn:Ea.
  - intros [<-|H]; [right|left; right; exact H].
    simpl. apply String.eqb_eq. exact Ea.
  - intros [<-|H]; [left; left; reflexivity|].
    destruct (IH H) as [H'|H']; [left; right; exact H'|right; exact H'].
Qed.

Lemma after_processing_emails (l : list Chat) :
  List.map other_user_email (chats_after_processing l)
  = List.map other_user_email l.
Proof.
  induction l as [|a l IH]; simpl; [reflexivity|].
  destruct (is_bot a); simpl; [reflexivity|]. f_equal. exact IH.
Qed.

(** The write into the entry of the automated correspondent does not
    change what the next computation of the list returns. *)
Lemma processedChats_after_processing iso (l : list Chat) :
  processedChats iso (chats_after_processing l) = processedChats iso l.
Proof.
  unfold processedChats.
  assert (H : List.find is_bot (chats_after_processing l)
              = option_map set_online (List.find is_bot l)
              /\ List.filter (fun chat => negb (is_bot chat))
                   (chats_after_processing l)
                 = List.filter (fun chat => negb (is_bot chat)) l).
  { induction l as [|a l [IH1 IH2]]; simpl; [split; reflexivity|].
    destruct (is_bot a) eqn:Ea; simpl.
    - change (is_bot (set_online a)) with (is_bot a). rewrite Ea. simpl.
      split; reflexivity.
    - rewrite Ea. simpl. rewrite IH1, IH2. split; reflexivity. }
  destruct H as [-> ->].
  destruct (List.find is_bot l); reflexivity.
Qed.

Lemma steps_app l1 l2 st : steps (l1 ++ l2) st = steps l2 (steps l1 st).
Proof. unfold steps. apply List.fold_left_app. Qed.

(** The flags of the listed chats of users never run ahead of the online
    set. *)
Lemma steps_keep_flags_in_set l : forall st,
  (forall chat, In chat (chats st) -> other_user_email chat <> BOT_EMAIL ->
                is_online chat = true ->
                other_user_email chat ∈ onlineUsers st) ->
  forall chat, In chat (chats (steps l st)) ->
               other_user_email chat <> BOT_EMAIL ->
               is_online chat = true ->
               other_user_email chat ∈ onlineUsers (steps l st).
Proof.
  unfold steps.
  induction l as [|[u b|] l IH]; simpl; intros st Hinv; [exact Hinv| |].
  - apply IH. intros chat' Hin Hbot Ho.
    destruct (status_change_chats u b st chat' Hin)
      as (chat & Hc & He & H1 & H2).
    rewrite He in *. simpl.
    destruct (String.eqb_spec (other_user_email chat) u) as [Eu|Eu].
    + rewrite (H1 Eu) in Ho. simpl in Ho. subst b.
      apply elem_of_union. left. apply elem_of_singleton. exact Eu.
    + rewrite (H2 Eu) in Ho. pose proof (Hinv chat Hc Hbot Ho) as Hm.
      destruct b; [apply elem_of_union; right; exact Hm|].
      apply elem_of_difference. split; [exact Hm|].
      intros Hx. apply elem_of_singleton in Hx. contradiction.
  - apply IH. intros chat' Hin Hbot Ho. simpl in *.
    destruct (after_processing_in _ _ Hin) as [H|H]; [|contradiction].
    apply Hinv; assumption.
Qed.

(** X17 — After the chat list has been loaded and any presence events and
    renders have followed, a listed chat of a user (not of the automated
    correspondent) that is flagged online has its user in the online set;
    hence selecting such a chat stores it as online exactly when its user
    is in the online set.  The online set built at load time holds
    exactly the users of the entries the server flagged online. *)
Theorem X17_selection_follows_online_set
    (chatList : list Chat) (l : list Step) (st0 : State) (chat : Chat) :
  In chat (chats (steps l (loadChatList_resolve chatList st0))) ->
  other_user_email chat <> BOT_EMAIL ->
  (is_online chat = true ->
   other_user_email chat
     ∈ onlineUsers (steps l (loadChatList_resolve chatList st0)))
  /\ (exists sel,
        selectedChat
          (fst (handleChatSelect chat
                  (steps l (loadChatList_resolve chatList st0))))
        = Some sel
        /\ other_user_email sel = other_user_email chat
        /\ is_online sel
           = bool_decide
               (other_user_email chat
                  ∈ onlineUsers
                      (steps l (loadChatList_resolve chatList st0))))
  /\ (forall u, u ∈ onlineUsers (loadChatList_resolve chatList st0)
                <-> exists c, In c chatList /\ is_online c = true
                              /\ other_user_email c = u).
Proof.
  intros Hin Hbot.
  assert (Hflag : is_online chat = true ->
            other_user_email chat
              ∈ onlineUsers (steps l (loadChatList_resolve chatList st0))).
  { apply (steps_keep_flags_in_set l
             (loadChatList_resolve chatList st0)); [|exact Hin|exact Hbot].
    intros c Hc _ Ho. simpl. apply online_of_spec. exists c. auto. }
  split; [exact Hflag|]. split.
  - eexists. split; [reflexivity|]. split; [reflexivity|]. simpl.
    destruct (String.eqb_spec (other_user_email chat) BOT_EMAIL);
      [contradiction|].
    destruct (is_online chat) eqn:Eo; [|apply orb_false_r].
    rewrite orb_true_r. symmetry. apply bool_decide_eq_true.
    apply Hflag. reflexivity.
  - intros u. simpl. apply online_of_spec.
Qed.

Lemma X17_selection_witness :
  exists sel,
    selectedChat
      (fst (handleChatSelect (with_online false Scenario.bob_chat)
              (steps [StatusChange "bob@example.com" true; Rendered;
                      StatusChange "bob@example.com" false; Rendered]
                 (loadChatList_resolve
                    [Scenario.bot_offline; Scenario.bob_chat]
                    (mkState [] None ∅)))))
    = Some sel
    /\ is_online sel
       = bool_decide
           ("bob@example.com"
              ∈ onlineUsers
                  (steps [StatusChange "bob@example.com" true; Rendered;
                          StatusChange "bob@example.com" false; Rendered]
                     (loadChatList_resolve
                        [Scenario.bot_offline; Scenario.bob_chat]
                        (mkState [] None ∅)))).
Proof.
  destruct (X17_selection_follows_online_set
              [Scenario.bot_offline; Scenario.bob_chat]
              [StatusChange "bob@example.com" true; Rendered;
               StatusChange "bob@example.com" false; Rendered]
              (mkState [] None ∅) (with_online false Scenario.bob_chat))
    as (_ & (sel & H1 & _ & H2) & _).
  - right. left. reflexivity.
  - discriminate.
  - exists sel. split; [exact H1 | exact H2].
Defined.

Lemma steps_without u l : forall st,
  (forall b, ~ In (StatusChange u b) l) ->
  (u ∈ onlineUsers (steps l st) <-> u ∈ onlineUsers st)
  /\ (u <> BOT_EMAIL ->
      forall b,
        (forall chat, In chat (chats st) -> other_user_email chat = u ->
                      is_online chat = b) ->
        forall chat, In chat (chats (steps l st)) ->
                     other_user_email chat = u -> is_online chat = b).
Proof.
  unfold steps.
  induction l as [|[v b'|] l IH]; simpl; intros st Hno.
  - split; [reflexivity|]. intros _ b H. exact H.
  - assert (Hv : v <> u).
    { intros ->. apply (Hno b'). left. reflexivity. }
    destruct (IH (onUserStatusChange v b' st)) as [I1 I2].
    { intros b Hb. apply (Hno b). right. exact Hb. }
    split.
    + rewrite I1. simpl. destruct b'.
      * rewrite elem_of_union, elem_of_singleton. split; [|auto].
        intros [H|H]; [congruence|exact H].
      * rewrite elem_of_difference, elem_of_singleton. split; [tauto|].
        intros H. split; [exact H|congruence].
    + intros Hbot b Hst. apply (I2 Hbot). intros chat' Hin He.
      destruct (status_change_chats v b' st chat' Hin)
        as (chat & Hc & Hem & _ & H2).
      assert (Hne : other_user_email chat <> v) by congruence.
      rewrite (H2 Hne). apply Hst; [exact Hc|congruence].
  - destruct (IH (renderChatList st)) as [I1 I2].
    { intros b Hb. apply (Hno b). right. exact Hb. }
    split; [exact I1|].
    intros Hbot b Hst. apply (I2 Hbot). intros chat' Hin He. simpl in Hin.
    destruct (after_processing_in _ _ Hin) as [H|H]; [|congruence].
    apply Hst; assumption.
Qed.

Lemma steps_emails l : forall st,
  List.map other_user_email (chats (steps l st))
  = List.map other_user_email (chats st).
Proof.
  unfold steps.
  induction l as [|[v b'|] l IH]; simpl; intros st; [reflexivity| |].
  - rewrite IH. apply status_change_emails.
  - rewrite IH. apply after_processing_emails.
Qed.

(** X18 — The last presence event about a user wins: after any run of
    presence events and renders whose last event about [u] says [b], the
    user is in the online set exactly when [b] is true and, for a user
    other than the automated correspondent, every listed chat of [u]
    carries [b]; neither events nor renders add, drop or reorder chats. *)
Theorem X18_last_presence_event_wins
    (before later : list Step) (u : string) (b : bool) (st : State) :
  (forall b', ~ In (StatusChange u b') later) ->
  (u ∈ onlineUsers (steps (before ++ StatusChange u b :: later) st)
   <-> b = true)
  /\ (u <> BOT_EMAIL ->
      forall chat,
        In chat (chats (steps (before ++ StatusChange u b :: later) st)) ->
        other_user_email chat = u -> is_online chat = b)
  /\ List.map other_user_email
       (chats (steps (before ++ StatusChange u b :: later) st))
     = List.map other_user_email (chats st).
Proof.
  intros Hno.
  pose proof (steps_emails (before ++ StatusChange u b :: later) st)
    as Hemails.
  rewrite steps_app in *.
  change (steps (StatusChange u b :: later) (steps before st))
    with (steps later (onUserStatusChange u b (steps before st))) in *.
  destruct (steps_without u later
              (onUserStatusChange u b (steps before st)) Hno) as [I1 I2].
  split; [|split].
  - rewrite I1. simpl. destruct b.
    + rewrite elem_of_union, elem_of_singleton. tauto.
    + rewrite elem_of_difference, elem_of_singleton.
      split; [tauto|discriminate].
  - intros Hbot. apply (I2 Hbot). intros chat' Hin He.
    destruct (status_change_chats u b _ chat' Hin) as (chat & _ & Hem & H1 & _).
    rewrite H1 by congruence. reflexivity.
  - exact Hemails.
Qed.

Lemma X18_last_presence_witness :
  "bob@example.com"
    ∈ onlineUsers
        (steps ([StatusChange "bob@example.com" false; Rendered]
                ++ StatusChange "bob@example.com" true
                :: [Rendered; StatusChange "carol@example.com" false])
           (mkState [Scenario.bob_chat] None ∅)).
Proof.
  refine (proj2 (proj1 (X18_last_presence_event_wins
                          [StatusChange "bob@example.com" false; Rendered]
                          [Rendered; StatusChange "carol@example.com" false]
                          "bob@example.com" true
                          (mkState [Scenario.bob_chat] None ∅) _)) eq_refl).
  intros b' [H|[H|[]]]; discriminate H.
Defined.

(** X19 — The presence handler makes no exception for the automated
    correspondent.  When its chat is selected and a presence event reports
    it offline, the selected chat is stored offline.  The route effect
    repairs this when the loaded chats contain an entry of the automated
    correspondent and the route names it; when they contain none (the list
    then shows the built-in entry), the selected chat stays offline, while
    the chat list keeps showing the automated correspondent online. *)
Theorem X19_presence_has_no_bot_exemption
    (iso : string) (st : State) (sel : Chat) :
  selectedChat st = Some sel ->
  other_user_email sel = BOT_EMAIL ->
  (selectedChat (onUserStatusChange BOT_EMAIL false st)
   = Some (with_online false sel))
  /\ ((forall chat, In chat (chats st) -> other_user_email chat <> BOT_EMAIL) ->
      selectedChat
        (routeEffect (Some BOT_EMAIL) (onUserStatusChange BOT_EMAIL false st))
      = Some (with_online false sel)
      /\ exists bot rest,
           rendered iso ""
             (routeEffect (Some BOT_EMAIL)
                (onUserStatusChange BOT_EMAIL false st))
           = bot :: rest
           /\ other_user_email bot = BOT_EMAIL /\ is_online bot = true)
  /\ ((exists chat, In chat (chats st) /\ other_user_email chat = BOT_EMAIL) ->
      exists sel',
        selectedChat
          (routeEffect (Some BOT_EMAIL)
             (onUserStatusChange BOT_EMAIL false st))
        = Some sel'
        /\ other_user_email sel' = BOT_EMAIL /\ is_online sel' = true).
Proof.
  intros Hsel Hbot.
  assert (E1 : selectedChat (onUserStatusChange BOT_EMAIL false st)
               = Some (with_online false sel)).
  { simpl. rewrite Hsel, Hbot, String.eqb_refl. reflexivity. }
  split; [exact E1|]. split.
  - intros Hnone.
    assert (Hfind : List.find
                      (fun c => String.eqb (other_user_email c) BOT_EMAIL)
                      (chats (onUserStatusChange BOT_EMAIL false st)) = None).
    { destruct (List.find _ _) as [c|] eqn:Ef; [|reflexivity].
      apply List.find_some in Ef as [Hin Hc]. apply String.eqb_eq in Hc.
      destruct (status_change_chats _ _ _ c Hin) as (chat & Hc' & He & _).
      exfalso. apply (Hnone chat Hc'). congruence. }
    assert (Er : routeEffect (Some BOT_EMAIL)
                   (onUserStatusChange BOT_EMAIL false st)
                 = onUserStatusChange BOT_EMAIL false st).
    { unfold routeEffect. rewrite Hfind.
      destruct (_ && _); reflexivity. }
    rewrite Er. split; [exact E1|].
    destruct (processedChats_shape iso
                (chats (onUserStatusChange BOT_EMAIL false st)))
      as (bot & Hp & He & Ho).
    exists bot. eexists. unfold rendered.
    split; [|split; [exact He|exact Ho]].
    unfold filteredChats. rewrite (filter_all_true _ _ matches_empty_query).
    exact Hp.
  - intros (chat & Hin & He).
    unfold routeEffect.
    assert (Hin' : In (with_online false chat)
                      (chats (onUserStatusChange BOT_EMAIL false st))).
    { simpl. apply List.in_map_iff. exists chat. split; [|exact Hin].
      rewrite He, String.eqb_refl. reflexivity. }
    assert (Hlen : (0 <? length (chats (onUserStatusChange BOT_EMAIL false st)))%nat
                   = true).
    { apply Nat.ltb_lt.
      destruct (chats (onUserStatusChange BOT_EMAIL false st));
        [destruct Hin'|simpl; lia]. }
    rewrite Hlen. simpl JS.truthy. simpl andb. cbv iota.
    destruct (List.find _ _) as [c|] eqn:Ef.
    + apply List.find_some in Ef as [_ Hc]. apply String.eqb_eq in Hc.
      eexists. split; [reflexivity|]. split; [exact Hc|].
      simpl. rewrite Hc. reflexivity.
    + exfalso.
      pose proof (List.find_none _ _ Ef _ Hin') as Hc. simpl in Hc.
      rewrite He in Hc. discriminate Hc.
Qed.

Lemma X19_presence_bot_witness :
  selectedChat
    (routeEffect (Some BOT_EMAIL)
       (onUserStatusChange BOT_EMAIL false
          (mkState [Scenario.bob_chat]
                   (Some (defaultBotChat "2023-11-14T22:13:20.000Z")) ∅)))
  = Some (with_online false (defaultBotChat "2023-11-14T22:13:20.000Z")).
Proof.
  apply (proj1 (proj1 (proj2
           (X19_presence_has_no_bot_exemption "2023-11-14T22:13:20.000Z"
              (mkState [Scenario.bob_chat]
                       (Some (defaultBotChat "2023-11-14T22:13:20.000Z")) ∅)
              (defaultBotChat "2023-11-14T22:13:20.000Z")
              eq_refl eq_refl))
           (fun chat H => match H with
                          | or_introl E =>
                              eq_ind Scenario.bob_chat
                                (fun c => other_user_email c <> BOT_EMAIL)
                                ltac:(discriminate) chat E
                          | or_intror F => match F with end
                          end))).
Defined.

End Presence.

(** ** More on the timestamp utilities *)

Section TimestampsMore.

Import DateUtils.

Local Open Scope string_scope.

Variable h : Host.

Lemma endsWithChar_app_Z s : JS.endsWithChar (s ++ "Z") "Z" = true.
Proof.
  induction s as [|c r IH]; [reflexivity|].
  change (String c r ++ "Z") with (String c (r ++ "Z")).
  destruct r as [|d r]; [reflexivity|].
  change (String d r ++ "Z") with (String d (r ++ "Z")) in *.
  exact IH.
Qed.

Lemma formatters_depend_on_date v v' :
  utcToLocal h v = utcToLocal h v' ->
  Forall (fun nf => snd nf v = snd nf v') (formatters h).
Proof.
  intros E. unfold formatters.
  repeat constructor; simpl;
    unfold formatRelativeTime, getTimeAgo, formatTime, formatDate,
           formatDateTime, formatChatTimestamp, getDateSeparator;
    rewrite E; reflexivity.
Qed.

Lemma utcToLocal_JStr s :
  s <> "" ->
  utcToLocal h (JStr s)
  = parse h (if JS.endsWithChar s "Z" then s else s ++ "Z").
Proof.
  intros Hne. unfold utcToLocal. destruct s as [|c r]; [contradiction|].
  change (falsy (JStr (String c r))) with false. cbv iota.
  unfold construct.
  destruct (JS.endsWithChar (String c r) "Z"); destruct (parse h _);
    reflexivity.
Qed.

(** X20 — A timestamp string and the same string with a 'Z' appended
    denote the same date: for a non-empty string without a trailing 'Z',
    [utcToLocal] gives the same result on both, and so does each of the
    seven formatters. *)
Theorem X20_Z_suffix_is_optional (s : string) :
  s <> "" -> JS.endsWithChar s "Z" = false ->
  utcToLocal h (JStr (s ++ "Z")) = utcToLocal h (JStr s)
  /\ Forall (fun nf => snd nf (JStr (s ++ "Z")) = snd nf (JStr s))
       (formatters h).
Proof.
  intros Hne Hz.
  assert (E : utcToLocal h (JStr (s ++ "Z")) = utcToLocal h (JStr s)).
  { rewrite (utcToLocal_JStr s Hne), Hz.
    rewrite (utcToLocal_JStr (s ++ "Z")), endsWithChar_app_Z; [reflexivity|].
    destruct s; discriminate. }
  split; [exact E|]. apply formatters_depend_on_date. exact E.
Qed.

End TimestampsMore.

Lemma X20_Z_suffix_witness :
  DateUtils.utcToLocal Scenario.host (DateUtils.JStr "2023-11-14T22:13:20Z")
  = DateUtils.utcToLocal Scenario.host (DateUtils.JStr "2023-11-14T22:13:20").
Proof.
  apply (proj1 (X20_Z_suffix_is_optional Scenario.host "2023-11-14T22:13:20"
                  ltac:(discriminate) eq_refl)).
Defined.

Section RelativeTime.

Import DateUtils.

Local Open Scope string_scope.

Variable h : Host.

Lemma relative_unfold v date :
  utcToLocal h v = Some date ->
  formatRelativeTime h v
  = (if ((now h - date) / 60000 <? 1)%Z then "Just now"
     else if ((now h - date) / 60000 <? 60)%Z
          then pretty ((now h - date) / 60000)%Z ++ "m ago"
     else if ((now h - date) / 3600000 <? 24)%Z
          then pretty ((now h - date) / 3600000)%Z ++ "h ago"
     else if ((now h - date) / 86400000 =? 1)%Z then "Yesterday"
     else if ((now h - date) / 86400000 <? 7)%Z
          then pretty ((now h - date) / 86400000)%Z ++ "d ago"
     else toLocale h DateShort date)
  /\ formatChatTimestamp h v
     = (if ((now h - date) / 60000 <? 1)%Z then "Just now"
        else if ((now h - date) / 60000 <? 60)%Z
             then pretty ((now h - date) / 60000)%Z ++ "m ago"
        else if ((now h - date) / 3600000 <? 24)%Z
             then pretty ((now h - date) / 3600000)%Z ++ "h ago"
        else if ((now h - date) / 86400000 =? 1)%Z then "Yesterday"
        else if ((now h - date) / 86400000 <? 7)%Z
             then toLocale h WeekdayShort date
        else toLocale h MonthShortDay date).
Proof.
  intros E. unfold formatRelativeTime, formatChatTimestamp, formatDate.
  rewrite E. split; reflexivity.
Qed.

(** X21 — The relative time of a valid timestamp of age [now - date]:
    "Just now" below one minute (a timestamp in the future included);
    "<n>m ago", n from 1 to 59, below one hour; "<n>h ago", n from 1 to
    23, below one day; "Yesterday" from one day to below two days;
    "<n>d ago", n from 2 to 6, below seven days; the short date from seven
    days on. *)
Theorem X21_formatRelativeTime_labels (v : Value) (date : Z) :
  utcToLocal h v = Some date ->
  ((now h - date < 60000)%Z -> formatRelativeTime h v = "Just now")
  /\ ((60000 <= now h - date < 3600000)%Z ->
        exists n, (1 <= n <= 59)%Z
                  /\ formatRelativeTime h v = pretty n ++ "m ago")
  /\ ((3600000 <= now h - date < 86400000)%Z ->
        exists n, (1 <= n <= 23)%Z
                  /\ formatRelativeTime h v = pretty n ++ "h ago")
  /\ ((86400000 <= now h - date < 172800000)%Z ->
        formatRelativeTime h v = "Yesterday")
  /\ ((172800000 <= now h - date < 604800000)%Z ->
        exists n, (2 <= n <= 6)%Z
                  /\ formatRelativeTime h v = pretty n ++ "d ago")
  /\ ((604800000 <= now h - date)%Z ->
        formatRelativeTime h v = toLocale h DateShort date).
Proof.
  intros E. destruct (relative_unfold v date E) as [-> _].
  set (age := (now h - date)%Z).
  repeat split; intros H.
  - assert (age / 60000 < 1)%Z by (apply Z.div_lt_upper_bound; lia).
    destruct (Z.ltb_spec (age / 60000) 1); [reflexivity|lia].
  - exists (age / 60000)%Z.
    assert (1 <= age / 60000)%Z by (apply Z.div_le_lower_bound; lia).
    assert (age / 60000 < 60)%Z by (apply Z.div_lt_upper_bound; lia).
    split; [lia|].
    destruct (Z.ltb_spec (age / 60000) 1); [lia|].
    destruct (Z.ltb_spec (age / 60000) 60); [reflexivity|lia].
  - exists (age / 3600000)%Z.
    assert (60 <= age / 60000)%Z by (apply Z.div_le_lower_bound; lia).
    assert (1 <= age / 3600000)%Z by (apply Z.div_le_lower_bound; lia).
    assert (age / 3600000 < 24)%Z by (apply Z.div_lt_upper_bound; lia).
    split; [lia|].
    destruct (Z.ltb_spec (age / 60000) 1); [lia|].
    destruct (Z.ltb_spec (age / 60000) 60); [lia|].
    destruct (Z.ltb_spec (age / 3600000) 24); [reflexivity|lia].
  - assert (60 <= age / 60000)%Z by (apply Z.div_le_lower_bound; lia).
    assert (24 <= age / 3600000)%Z by (apply Z.div_le_lower_bound; lia).
    assert (1 <= age / 86400000)%Z by (apply Z.div_le_lower_bound; lia).
    assert (age / 86400000 < 2)%Z by (apply Z.div_lt_upper_bound; lia).
    destruct (Z.ltb_spec (age / 60000) 1); [lia|].
    destruct (Z.ltb_spec (age / 60000) 60); [lia|].
    destruct (Z.ltb_spec (age / 3600000) 24); [lia|].
    destruct (Z.eqb_spec (age / 86400000) 1); [reflexivity|lia].
  - exists (age / 86400000)%Z.
    assert (60 <= age / 60000)%Z by (apply Z.div_le_lower_bound; lia).
    assert (24 <= age / 3600000)%Z by (apply Z.div_le_lower_bound; lia).
    assert (2 <= age / 86400000)%Z by (apply Z.div_le_lower_bound; lia).
    assert (age / 86400000 < 7)%Z by (apply Z.div_lt_upper_bound; lia).
    split; [lia|].
    destruct (Z.ltb_spec (age / 60000) 1); [lia|].
    destruct (Z.ltb_spec (age / 60000) 60); [lia|].
    destruct (Z.ltb_spec (age / 3600000) 24); [lia|].
    destruct (Z.eqb_spec (age / 86400000) 1); [lia|].
    destruct (Z.ltb_spec (age / 86400000) 7); [reflexivity|lia].
  - assert (60 <= age / 60000)%Z by (apply Z.div_le_lower_bound; lia).
    assert (24 <= age / 3600000)%Z by (apply Z.div_le_lower_bound; lia).
    assert (7 <= age / 86400000)%Z by (apply Z.div_le_lower_bound; lia).
    destruct (Z.ltb_spec (age / 60000) 1); [lia|].
    destruct (Z.ltb_spec (age / 60000) 60); [lia|].
    destruct (Z.ltb_spec (age / 3600000) 24); [lia|].
    destruct (Z.eqb_spec (age / 86400000) 1); [lia|].
    destruct (Z.ltb_spec (age / 86400000) 7); [lia|reflexivity].
Qed.

(** X22 — The two relative formats agree on recent timestamps: on an
    input that gives no date both return the empty string, and on a date
    less than two days old [formatRelativeTime] and [formatChatTimestamp]
    return the same label; they differ only from the second day on
    (number of days against weekday, long against short date). *)
Theorem X22_relative_formats_agree_on_recent (v : Value) :
  (utcToLocal h v = None ->
   formatRelativeTime h v = "" /\ formatChatTimestamp h v = "")
  /\ (forall date,
        utcToLocal h v = Some date ->
        (now h - date < 172800000)%Z ->
        formatRelativeTime h v = formatChatTimestamp h v).
Proof.
  split.
  - intros E. unfold formatRelativeTime, formatChatTimestamp. rewrite E.
    split; reflexivity.
  - intros date E H. destruct (relative_unfold v date E) as [-> ->].
    set (age := (now h - date)%Z) in *.
    destruct (Z.ltb_spec (age / 60000) 1); [reflexivity|].
    destruct (Z.ltb_spec (age / 60000) 60); [reflexivity|].
    destruct (Z.ltb_spec (age / 3600000) 24); [reflexivity|].
    destruct (Z.eqb_spec (age / 86400000) 1); [reflexivity|].
    exfalso.
    assert (age / 86400000 < 2)%Z by (apply Z.div_lt_upper_bound; lia).
    assert (24 <= age / 3600000)%Z by lia.
    assert (86400000 <= age)%Z.
    { destruct (Z.lt_ge_cases age 86400000) as [Hlt|Hge]; [|lia].
      assert (age / 3600000 < 24)%Z by (apply Z.div_lt_upper_bound; lia).
      lia. }
    assert (1 <= age / 86400000)%Z by (apply Z.div_le_lower_bound; lia).
    lia.
Qed.

Lemma timeago_unfold v date :
  utcToLocal h v = Some date ->
  getTimeAgo h v
  = (let diffInSeconds := ((now h - date) / 1000)%Z in
     if (diffInSeconds <? 60)%Z then "just now"
     else if (diffInSeconds <? 3600)%Z then
       pretty (diffInSeconds / 60)%Z ++ " minute"
       ++ plural (diffInSeconds / 60) ++ " ago"
     else if (diffInSeconds <? 86400)%Z then
       pretty (diffInSeconds / 3600)%Z ++ " hour"
       ++ plural (diffInSeconds / 3600) ++ " ago"
     else if (diffInSeconds <? 604800)%Z then
       pretty (diffInSeconds / 86400)%Z ++ " day"
       ++ plural (diffInSeconds / 86400) ++ " ago"
     else toLocale h DateShort date).
Proof.
  intros E. unfold getTimeAgo, formatDate. rewrite E. reflexivity.
Qed.

(** X23 — [getTimeAgo] counts whole units and uses the singular for
    exactly one: for a valid timestamp of age [now - date] it gives "just
    now" below one minute, "1 minute ago" below two minutes, "<n> minutes
    ago" with n from 2 to 59 below one hour, "1 hour ago" below two hours,
    "<n> hours ago" with n from 2 to 23 below one day, "1 day ago" below
    two days, "<n> days ago" with n from 2 to 6 below seven days. *)
Theorem X23_getTimeAgo_labels (v : Value) (date : Z) :
  utcToLocal h v = Some date ->
  ((now h - date < 60000)%Z -> getTimeAgo h v = "just now")
  /\ ((60000 <= now h - date < 120000)%Z -> getTimeAgo h v = "1 minute ago")
  /\ ((120000 <= now h - date < 3600000)%Z ->
        exists n, (2 <= n <= 59)%Z
                  /\ getTimeAgo h v = pretty n ++ " minutes ago")
  /\ ((3600000 <= now h - date < 7200000)%Z -> getTimeAgo h v = "1 hour ago")
  /\ ((7200000 <= now h - date < 86400000)%Z ->
        exists n, (2 <= n <= 23)%Z
                  /\ getTimeAgo h v = pretty n ++ " hours ago")
  /\ ((86400000 <= now h - date < 172800000)%Z ->
        getTimeAgo h v = "1 day ago")
  /\ ((172800000 <= now h - date < 604800000)%Z ->
        exists n, (2 <= n <= 6)%Z
                  /\ getTimeAgo h v = pretty n ++ " days ago").
Proof.
  intros E. rewrite (timeago_unfold v date E). cbv zeta.
  set (age := (now h - date)%Z).
  assert (Hs : forall lo hi, (lo * 1000 <= age < hi * 1000)%Z ->
                             (lo <= age / 1000 < hi)%Z).
  { intros lo hi Hb. split;
      [apply Z.div_le_lower_bound | apply Z.div_lt_upper_bound]; lia. }
  assert (Hq : forall s d lo hi, (0 < d)%Z -> (lo * d <= s < hi * d)%Z ->
                                 (lo <= s / d < hi)%Z).
  { intros s d lo hi Hd Hb. split;
      [apply Z.div_le_lower_bound | apply Z.div_lt_upper_bound]; lia. }
  set (s := (age / 1000)%Z) in *.
  repeat split; intros H.
  - assert (s < 60)%Z by (apply Z.div_lt_upper_bound; lia).
    destruct (Z.ltb_spec s 60); [reflexivity|lia].
  - pose proof (Hs 60 120 ltac:(lia))%Z as Hb.
    pose proof (Hq s 60 1 2 ltac:(lia) ltac:(lia))%Z as Hn.
    assert (En : (s / 60 = 1)%Z) by lia.
    destruct (Z.ltb_spec s 60); [lia|].
    destruct (Z.ltb_spec s 3600); [|lia].
    rewrite En. reflexivity.
  - pose proof (Hs 120 3600 ltac:(lia))%Z as Hb.
    pose proof (Hq s 60 2 60 ltac:(lia) ltac:(lia))%Z as Hn.
    exists (s / 60)%Z. split; [lia|].
    destruct (Z.ltb_spec s 60); [lia|].
    destruct (Z.ltb_spec s 3600); [|lia].
    unfold plural. destruct (Z.ltb_spec 1 (s / 60)); [reflexivity|lia].
  - pose proof (Hs 3600 7200 ltac:(lia))%Z as Hb.
    pose proof (Hq s 3600 1 2 ltac:(lia) ltac:(lia))%Z as Hn.
    assert (En : (s / 3600 = 1)%Z) by lia.
    destruct (Z.ltb_spec s 60); [lia|].
    destruct (Z.ltb_spec s 3600); [lia|].
    destruct (Z.ltb_spec s 86400); [|lia].
    rewrite En. reflexivity.
  - pose proof (Hs 7200 86400 ltac:(lia))%Z as Hb.
    pose proof (Hq s 3600 2 24 ltac:(lia) ltac:(lia))%Z as Hn.
    exists (s / 3600)%Z. split; [lia|].
    destruct (Z.ltb_spec s 60); [lia|].
    destruct (Z.ltb_spec s 3600); [lia|].
    destruct (Z.ltb_spec s 86400); [|lia].
    unfold plural. destruct (Z.ltb_spec 1 (s / 3600)); [reflexivity|lia].
  - pose proof (Hs 86400 172800 ltac:(lia))%Z as Hb.
    pose proof (Hq s 86400 1 2 ltac:(lia) ltac:(lia))%Z as Hn.
    assert (En : (s / 86400 = 1)%Z) by lia.
    destruct (Z.ltb_spec s 60); [lia|].
    destruct (Z.ltb_spec s 3600); [lia|].
    destruct (Z.ltb_spec s 86400); [lia|].
    destruct (Z.ltb_spec s 604800); [|lia].
    rewrite En. reflexivity.
  - pose proof (Hs 172800 604800 ltac:(lia))%Z as Hb.
    pose proof (Hq s 86400 2 7 ltac:(lia) ltac:(lia))%Z as Hn.
    exists (s / 86400)%Z. split; [lia|].
    destruct (Z.ltb_spec s 60); [lia|].
    destruct (Z.ltb_spec s 3600); [lia|].
    destruct (Z.ltb_spec s 86400); [lia|].
    destruct (Z.ltb_spec s 604800); [|lia].
    unfold plural. destruct (Z.ltb_spec 1 (s / 86400)); [reflexivity|lia].
Qed.

(** X24 — Days.  [isSameDay] is false as soon as one of its arguments
    gives no date, it is symmetric, and a valid timestamp is on the same
    day as itself.  A timestamp that [isSameDay] places on the day of the
    current time gets the separator "Today". *)
Theorem X24_same_day_is_today (v1 v2 : Value) :
  (utcToLocal h v1 = None \/ utcToLocal h v2 = None ->
   isSameDay h v1 v2 = false)
  /\ isSameDay h v1 v2 = isSameDay h v2 v1
  /\ (utcToLocal h v1 <> None -> isSameDay h v1 v1 = true)
  /\ (isSameDay h v1 (JDate (Some (now h))) = true ->
      getDateSeparator h v1 = "Today").
Proof.
  unfold isSameDay, getDateSeparator.
  change (utcToLocal h (JDate (Some (now h)))) with (Some (now h)).
  destruct (utcToLocal h v1) as [d1|]; destruct (utcToLocal h v2) as [d2|];
    repeat split; try reflexivity; try congruence;
    try (intros [H|H]; discriminate H).
  - rewrite (Z.eqb_sym (getFullYear h d1)), (Z.eqb_sym (getMonth h d1)),
            (Z.eqb_sym (getDate h d1)). reflexivity.
  - intros _. rewrite !Z.eqb_refl. reflexivity.
  - intros H. apply andb_true_iff in H as [H H3].
    apply andb_true_iff in H as [H1 H2].
    apply Z.eqb_eq in H1, H2, H3. rewrite H1, H2, H3, Z.sub_diag.
    reflexivity.
  - intros _. rewrite !Z.eqb_refl. reflexivity.
  - intros H. apply andb_true_iff in H as [H H3].
    apply andb_true_iff in H as [H1 H2].
    apply Z.eqb_eq in H1, H2, H3. rewrite H1, H2, H3, Z.sub_diag.
    reflexivity.
Qed.

End RelativeTime.

Lemma X21_formatRelativeTime_witness :
  exists n, (1 <= n <= 59)%Z
            /\ DateUtils.formatRelativeTime Scenario.host
                 (DateUtils.JStr "2023-11-14T22:13:20")
               = (pretty n ++ "m ago")%string.
Proof.
  apply (proj1 (proj2 (X21_formatRelativeTime_labels Scenario.host
                         (DateUtils.JStr "2023-11-14T22:13:20")
                         1700000000000%Z eq_refl))).
  simpl. lia.
Defined.

Lemma X22_relative_formats_witness :
  DateUtils.formatRelativeTime Scenario.host
    (DateUtils.JStr "2023-11-14T22:13:20")
  = DateUtils.formatChatTimestamp Scenario.host
      (DateUtils.JStr "2023-11-14T22:13:20").
Proof.
  apply (proj2 (X22_relative_formats_agree_on_recent Scenario.host
                  (DateUtils.JStr "2023-11-14T22:13:20"))
           1700000000000%Z eq_refl).
  simpl. lia.
Defined.

Lemma X23_getTimeAgo_witness :
  DateUtils.getTimeAgo Scenario.host (DateUtils.JStr "2023-11-14T22:13:20")
  = "1 minute ago"%string.
Proof.
  apply (proj1 (proj2 (X23_getTimeAgo_labels Scenario.host
                         (DateUtils.JStr "2023-11-14T22:13:20")
                         1700000000000%Z eq_refl))).
  simpl. lia.
Defined.

Lemma X24_same_day_witness :
  DateUtils.getDateSeparator Scenario.host
    (DateUtils.JStr "2023-11-14T22:13:20")
  = "Today"%string.
Proof.
  apply (proj2 (proj2 (proj2
           (X24_same_day_is_today Scenario.host
              (DateUtils.JStr "2023-11-14T22:13:20") DateUtils.JNull)))).
  reflexivity.
Defined.

(** ** The date separators of the chat window *)

Section Separators.

Import ChatWindow WindowDates.

Variable h : DateUtils.Host.

Lemma separators_after_length (l : list Message) : forall previous,
  length (separators_after h previous l) = length l.
Proof.
  induction l as [|m l IH]; simpl; intros previous; [reflexivity|].
  rewrite IH. reflexivity.
Qed.

Lemma isSameDay_unparsable_r previous ts :
  DateUtils.parse h ts = None -> isSameDay h previous ts = false.
Proof.
  intros E. unfold isSameDay. rewrite E.
  destruct (DateUtils.parse h previous); reflexivity.
Qed.

Lemma isSameDay_unparsable_l ts next :
  DateUtils.parse h ts = None -> isSameDay h ts next = false.
Proof. intros E. unfold isSameDay. rewrite E. reflexivity. Qed.

Lemma getDateSeparator_unparsable ts :
  DateUtils.parse h ts = None -> getDateSeparator h ts = "Invalid Date"%string.
Proof. intros E. unfold getDateSeparator. rewrite E. reflexivity. Qed.

Lemma isSameDay_common a b c :
  isSameDay h a b = true -> isSameDay h a c = true -> isSameDay h b c = true.
Proof.
  unfold isSameDay.
  destruct (DateUtils.parse h a) as [da|]; [|discriminate].
  destruct (DateUtils.parse h b) as [db|]; [|discriminate].
  destruct (DateUtils.parse h c) as [dc|]; [|discriminate].
  intros H1 H2.
  apply andb_true_iff in H1 as [H1 H13]. apply andb_true_iff in H1 as [H11 H12].
  apply andb_true_iff in H2 as [H2 H23]. apply andb_true_iff in H2 as [H21 H22].
  apply Z.eqb_eq in H11, H12, H13, H21, H22, H23.
  rewrite <- H11, <- H12, <- H13, H21, H22, H23, !Z.eqb_refl. reflexivity.
Qed.

Lemma separators_after_unparsable (l1 : list Message) m l2 :
  DateUtils.parse h (timestamp m) = None ->
  forall previous,
    separators_after h previous (l1 ++ m :: l2) !! length l1
    = Some (Some "Invalid Date"%string)
    /\ forall m' l3, l2 = m' :: l3 ->
         separators_after h previous (l1 ++ m :: l2) !! S (length l1)
         = Some (Some (getDateSeparator h (timestamp m'))).
Proof.
  intros E. induction l1 as [|a l1 IH]; intros previous.
  - simpl. rewrite (isSameDay_unparsable_r previous _ E),
      (getDateSeparator_unparsable _ E).
    split; [reflexivity|]. intros m' l3 ->. simpl.
    rewrite (isSameDay_unparsable_l _ (timestamp m') E). reflexivity.
  - simpl. apply IH.
Qed.

Lemma separators_after_same_day (l : list Message) : forall first previous,
  isSameDay h first previous = true ->
  Forall (fun m' => isSameDay h first (timestamp m') = true) l ->
  separators_after h previous l = repeat None (length l).
Proof.
  induction l as [|m l IH]; simpl; intros first previous Hp Hall;
    [reflexivity|].
  apply List.Forall_cons_iff in Hall as [Hm Hall].
  rewrite (isSameDay_common first previous (timestamp m) Hp Hm).
  f_equal. apply (IH first); assumption.
Qed.

(** X25 — The date separators of the displayed conversation: there is one
    slot per message and the first message always carries a separator.  A
    message whose timestamp does not parse carries the separator "Invalid
    Date" and forces a separator on the message after it.  When all the
    messages fall on the day of the first one, the first separator is the
    only one. *)
Theorem X25_date_separators (l : list Message) :
  length (separators h l) = length l
  /\ (forall m l', l = m :: l' ->
        hd_error (separators h l)
        = Some (Some (getDateSeparator h (timestamp m))))
  /\ (forall l1 m l2,
        l = l1 ++ m :: l2 -> DateUtils.parse h (timestamp m) = None ->
        separators h l !! length l1 = Some (Some "Invalid Date"%string)
        /\ forall m' l3, l2 = m' :: l3 ->
             separators h l !! S (length l1)
             = Some (Some (getDateSeparator h (timestamp m'))))
  /\ (forall m l',
        l = m :: l' ->
        Forall (fun m' => isSameDay h (timestamp m) (timestamp m') = true)
               (m :: l') ->
        separators h l
        = Some (getDateSeparator h (timestamp m))
          :: repeat None (length l')).
Proof.
  split; [|split; [|split]].
  - destruct l as [|m l]; simpl; [reflexivity|].
    rewrite separators_after_length. reflexivity.
  - intros m l' ->. reflexivity.
  - intros l1 m l2 -> E. destruct l1 as [|a l1].
    + simpl. rewrite (getDateSeparator_unparsable _ E).
      split; [reflexivity|]. intros m' l3 ->. simpl.
      rewrite (isSameDay_unparsable_l _ (timestamp m') E). reflexivity.
    + simpl. apply separators_after_unparsable. exact E.
  - intros m l' -> Hall. simpl. f_equal.
    apply List.Forall_cons_iff in Hall as [Hm Hall].
    apply (separators_after_same_day l' (timestamp m)); assumption.
Qed.

End Separators.

Lemma X25_date_separators_witness :
  WindowDates.separators Scenario.host
    [Scenario.m3;
     ChatWindow.mkMessage "m5" "bob@example.com" "alice@example.com" "?"
       "yesterday" "Sent" None false;
     Scenario.m7]
  !! 1%nat = Some (Some "Invalid Date"%string).
Proof.
  apply (proj1 (proj1 (proj2 (proj2
           (X25_date_separators Scenario.host
              [Scenario.m3;
               ChatWindow.mkMessage "m5" "bob@example.com"
                 "alice@example.com" "?" "yesterday" "Sent" None false;
               Scenario.m7]))) [Scenario.m3] _ [Scenario.m7]
           eq_refl eq_refl)).
Defined.
